(** * ha_converter: the Home Assistant automation rewriter

    A shallow embedding of the conversion core of [ha_converter.py]
    (class [HAYamlConverter]): the shape classifiers [_is_automation] and
    [_is_new_syntax], the trigger normaliser [_convert_triggers], the
    automation rewriter [convert_automation], the document walker
    [_convert_yaml_data] and the statistics of [get_summary_stats].

    Parsed YAML is a tree of mappings, sequences and scalars.  A Python
    [dict] keeps its keys in insertion order, so a mapping is an
    association list; [deepcopy] is the identity on such immutable trees.
    Python exceptions are results [Raise e]; the converter object, whose
    [changes_log] the methods append to, is threaded through a small
    state-and-exception monad. *)

From Stdlib Require Import List String Ascii Bool ZArith Arith Permutation.
From Stdlib Require Import DecimalString Lia.
Import ListNotations.
Local Open Scope string_scope.
Local Open Scope list_scope.

(** ** Document nodes *)

(** YAML scalars as the loader produces them.  A [str] is kept as its
    UTF-8 bytes; a float by its binary64 bit pattern. *)
Inductive ScalarValue : Type :=
| SStr (s : string)
| SInt (z : Z)
| SFloat (bits : Z)
| SBool (b : bool)
| SNull.

#[warnings="-register-all"]
Inductive Node : Type :=
| Mapping (items : list (string * Node))
| Sequence (elems : list Node)
| Scalar (v : ScalarValue).

Definition dict : Type := list (string * Node).

Definition PyStr (s : string) : Node := Scalar (SStr s).

(** ** Python [dict] operations on association lists *)

Module PyDict.

Definition keys (d : dict) : list string := map fst d.

(** [k in d] *)
Definition contains (k : string) (d : dict) : bool :=
  existsb (String.eqb k) (keys d).

(** [d.get(k)], [None] when the key is absent *)
Fixpoint get (k : string) (d : dict) : option Node :=
  match d with
  | [] => None
  | (k', v) :: rest => if String.eqb k k' then Some v else get k rest
  end.

(** [d.get(k, default)] *)
Definition get_default (k : string) (default : Node) (d : dict) : Node :=
  match get k d with
  | Some v => v
  | None => default
  end.

(** [d[k] = v]: an existing key keeps its position, a new key goes last *)
Fixpoint set (k : string) (v : Node) (d : dict) : dict :=
  match d with
  | [] => [(k, v)]
  | (k', v') :: rest =>
      if String.eqb k k' then (k', v) :: rest else (k', v') :: set k v rest
  end.

(** [del d[k]] for a key that is present *)
Definition del (k : string) (d : dict) : dict :=
  filter (fun kv => negb (String.eqb k (fst kv))) d.

(** [any(key in d for key in ks)] *)
Definition any_key_in (ks : list string) (d : dict) : bool :=
  existsb (fun key => contains key d) ks.

End PyDict.

(** ** Python [str] operations on UTF-8 strings *)

Module PyString.

(** [sub in s] *)
Fixpoint contains (sub s : string) : bool :=
  String.prefix sub s ||
  match s with
  | EmptyString => false
  | String _ s' => contains sub s'
  end.

(** A UTF-8 continuation byte, [10xxxxxx]. *)
Definition is_continuation (c : ascii) : bool :=
  ((128 <=? nat_of_ascii c)%nat && (nat_of_ascii c <? 192)%nat)%bool.

(** [list(s)]: the characters (code points) of [s], one string each *)
Fixpoint chars (s : string) : list string :=
  match s with
  | EmptyString => []
  | String c s' =>
      match s' with
      | String c' _ =>
          if is_continuation c' then
            match chars s' with
            | h :: t => String c h :: t
            | [] => [String c EmptyString]
            end
          else String c EmptyString :: chars s'
      | EmptyString => [String c EmptyString]
      end
  end.

(** [sep.join(parts)] *)
Definition join (sep : string) (parts : list string) : string :=
  String.concat sep parts.

(** [s.startswith(p)] *)
Definition startswith (p s : string) : bool := String.prefix p s.

End PyString.

(** ** Exceptions and the converter's state *)

Inductive PyError : Type :=
| TypeError
| AttributeError
| KeyError.

Inductive result (A : Type) : Type :=
| Ok (a : A)
| Raise (e : PyError).
Arguments Ok {A} a.
Arguments Raise {A} e.

(** [total_stats] and the value of [get_summary_stats] *)
Record Stats : Type := mkStats {
  converted : nat;
  already_new : nat;
  total : nat
}.

(** The fields of a [HAYamlConverter] that conversion reads or writes. *)
Record HAYamlConverter : Type := mkConverter {
  changes_log : list string;
  total_stats : Stats
}.

Class Monad (m : Type -> Type) : Type := {
  ret : forall {A : Type}, A -> m A;
  bind : forall {A B : Type}, m A -> (A -> m B) -> m B
}.

Declare Scope monad_scope.
Delimit Scope monad_scope with monad.
Notation "x <- c1 ;; c2" := (bind c1 (fun x => c2))
  (at level 61, c1 at next level, right associativity) : monad_scope.
Notation "' pat <- c1 ;; c2" := (bind c1 (fun x => match x with pat => c2 end))
  (at level 61, pat pattern, c1 at next level, right associativity) : monad_scope.
Notation "c1 ;; c2" := (bind c1 (fun _ => c2))
  (at level 61, right associativity) : monad_scope.
Local Open Scope monad_scope.

#[global] Instance result_Monad : Monad result := {
  ret := fun A a => Ok a;
  bind := fun A B c k =>
    match c with
    | Ok a => k a
    | Raise e => Raise e
    end
}.

(** A method of the converter: it may raise, and the object keeps whatever
    was written to it before the exception. *)
Definition Method (A : Type) : Type :=
  HAYamlConverter -> result A * HAYamlConverter.

#[global] Instance Method_Monad : Monad Method := {
  ret := fun A a self => (Ok a, self);
  bind := fun A B c k self =>
    match c self with
    | (Ok a, self') => k a self'
    | (Raise e, self') => (Raise e, self')
    end
}.

(** A computation that does not touch the converter. *)
Definition lift {A : Type} (r : result A) : Method A :=
  fun self => (r, self).

(** [self.changes_log.append(entry)] *)
Definition log_append (entry : string) : Method unit :=
  fun self =>
    (Ok tt, mkConverter (changes_log self ++ [entry]) (total_stats self)).

(** A loop that builds a list, stopping at the first exception. *)
Fixpoint mapM {m : Type -> Type} `{Monad m} {A B : Type}
    (f : A -> m B) (l : list A) : m (list B) :=
  match l with
  | [] => ret []
  | x :: rest => y <- f x ;; ys <- mapM f rest ;; ret (y :: ys)
  end.

(** ** Python operators applied to a node of any kind *)

Module PyNode.

(** [for x in node]: the items the loop visits *)
Definition iter (node : Node) : result (list Node) :=
  match node with
  | Sequence elems => Ok elems
  | Mapping items => Ok (map PyStr (PyDict.keys items))
  | Scalar (SStr s) => Ok (map PyStr (PyString.chars s))
  | Scalar _ => Raise TypeError
  end.

Definition is_str (key : string) (node : Node) : bool :=
  match node with
  | Scalar (SStr s) => String.eqb key s
  | _ => false
  end.

(** [key in node] for a string [key] *)
Definition contains (key : string) (node : Node) : result bool :=
  match node with
  | Mapping items => Ok (PyDict.contains key items)
  | Sequence elems => Ok (existsb (is_str key) elems)
  | Scalar (SStr s) => Ok (PyString.contains key s)
  | Scalar _ => Raise TypeError
  end.

(** [node[key]] for a string [key] *)
Definition getitem (node : Node) (key : string) : result Node :=
  match node with
  | Mapping items =>
      match PyDict.get key items with
      | Some v => Ok v
      | None => Raise KeyError
      end
  | _ => Raise TypeError
  end.

(** [node[key] = v] for a string [key] *)
Definition setitem (node : Node) (key : string) (v : Node) : result Node :=
  match node with
  | Mapping items => Ok (Mapping (PyDict.set key v items))
  | _ => Raise TypeError
  end.

(** [del node[key]] for a string [key] *)
Definition delitem (node : Node) (key : string) : result Node :=
  match node with
  | Mapping items =>
      if PyDict.contains key items then Ok (Mapping (PyDict.del key items))
      else Raise KeyError
  | _ => Raise TypeError
  end.

End PyNode.

(** ** The converter *)

Section Converter.

(** How an f-string renders the value found under [alias]: the builtin
    [format]/[str], which the YAML loader's node classes determine. *)
Variable py_str : Node -> string.

(** [_is_automation]: a dict with at least one automation key *)
Definition _is_automation (item : Node) : bool :=
  match item with
  | Mapping d =>
      PyDict.any_key_in
        ["trigger"; "triggers"; "condition"; "conditions";
         "action"; "actions"; "alias"] d
  | _ => false
  end.

(** [_is_new_syntax]: new keys only *)
Definition _is_new_syntax (automation : Node) : bool :=
  match automation with
  | Mapping d =>
      let has_new_keys :=
        PyDict.any_key_in ["triggers"; "conditions"; "actions"] d in
      let has_old_keys :=
        PyDict.any_key_in ["trigger"; "condition"; "action"] d in
      has_new_keys && negb has_old_keys
  | _ => false
  end.

(** The body of the loop of [_convert_triggers], for one [trigger]. *)
Definition convert_trigger (trigger : Node) : result Node :=
  let converted_trigger := trigger in
  has_platform <- PyNode.contains "platform" converted_trigger ;;
  if has_platform : bool then
    platform <- PyNode.getitem converted_trigger "platform" ;;
    converted_trigger <- PyNode.setitem converted_trigger "trigger" platform ;;
    PyNode.delitem converted_trigger "platform"
  else ret converted_trigger.

(** [_convert_triggers]: wrap a single dict, then rename [platform] to
    [trigger] in every entry *)
Definition _convert_triggers (triggers : Node) : result (list Node) :=
  let triggers :=
    match triggers with
    | Mapping _ => Sequence [triggers]
    | _ => triggers
    end in
  entries <- PyNode.iter triggers ;;
  mapM convert_trigger entries.

(** [converted[new_key] = converted[old_key]; del converted[old_key]] *)
Definition move_key (old_key new_key : string) (converted : dict)
  : result dict :=
  match PyDict.get old_key converted with
  | Some v => Ok (PyDict.del old_key (PyDict.set new_key v converted))
  | None => Raise KeyError
  end.

(** [convert_automation] *)
Definition convert_automation (automation : Node) : Method Node :=
  match automation with
  | Mapping d =>
      let converted := d in
      let changes : list string := [] in
      let alias :=
        PyDict.get_default "alias" (PyStr "Unnamed automation") converted in
      if _is_new_syntax automation then
        log_append ("⚪ " ++ py_str alias ++ ": già in nuova sintassi") ;;
        ret (Mapping converted)
      else
        '(converted, changes) <-
          (if PyDict.contains "trigger" converted then
             trigger <- lift (PyNode.getitem (Mapping converted) "trigger") ;;
             triggers <- lift (_convert_triggers trigger) ;;
             ret (PyDict.del "trigger"
                    (PyDict.set "triggers" (Sequence triggers) converted),
                  changes ++ ["trigger → triggers"])
           else ret (converted, changes)) ;;
        '(converted, changes) <-
          (if PyDict.contains "condition" converted then
             converted <- lift (move_key "condition" "conditions" converted) ;;
             ret (converted, changes ++ ["condition → conditions"])
           else ret (converted, changes)) ;;
        '(converted, changes) <-
          (if PyDict.contains "action" converted then
             converted <- lift (move_key "action" "actions" converted) ;;
             ret (converted, changes ++ ["action → actions"])
           else ret (converted, changes)) ;;
        match changes with
        | [] => ret tt
        | _ :: _ =>
            log_append
              ("✓ " ++ py_str alias ++ ": " ++ PyString.join ", " changes)
        end ;;
        ret (Mapping converted)
  | _ => fun self => (Raise AttributeError, self)
  end.

(** The [for key, value in data.items()] loop of [_convert_yaml_data],
    [recurse] being the method itself. *)
Definition convert_items (recurse : Node -> Method Node)
  : list (string * Node) -> dict -> Method dict :=
  fix loop (items : list (string * Node)) (converted : dict) : Method dict :=
    match items with
    | [] => ret converted
    | (key, value) :: rest =>
        if String.eqb key "automation" then
          value' <- recurse value ;;
          loop rest (PyDict.set key value' converted)
        else loop rest (PyDict.set key value converted)
    end.

(** The list comprehension of [_convert_yaml_data], for one [item]. *)
Definition convert_item (item : Node) : Method Node :=
  if _is_automation item then convert_automation item else ret item.

(** [_convert_yaml_data] *)
Fixpoint _convert_yaml_data (data : Node) : Method Node :=
  match data with
  | Sequence elems =>
      elems' <- mapM convert_item elems ;;
      ret (Sequence elems')
  | Mapping items =>
      if _is_automation data then convert_automation data
      else
        converted <- convert_items _convert_yaml_data items [] ;;
        ret (Mapping converted)
  | Scalar _ => ret data
  end.

(** [get_summary_stats] *)
Definition get_summary_stats (self : HAYamlConverter) : Stats :=
  let converted :=
    List.length (filter (PyString.startswith "✓") (changes_log self)) in
  let already_new :=
    List.length (filter (PyString.startswith "⚪") (changes_log self)) in
  mkStats converted already_new (List.length (changes_log self)).

End Converter.

(** * Vocabulary of the specification *)

(** Key presence, as a proposition. *)
Definition has_key (k : string) (d : dict) : Prop := In k (PyDict.keys d).

(** What renaming [platform] to [trigger] means for one entry [d] with
    result [o]: the value moves to [trigger], [platform] is gone, every
    other key keeps its value, and the other entries keep their order.
    An entry without [platform] is unchanged. *)
Definition platform_renamed (d o : dict) : Prop :=
  match PyDict.get "platform" d with
  | Some v =>
      PyDict.get "trigger" o = Some v /\
      PyDict.contains "platform" o = false /\
      (forall k, k <> "platform" -> k <> "trigger" ->
                 PyDict.get k o = PyDict.get k d) /\
      PyDict.del "trigger" o = PyDict.del "trigger" (PyDict.del "platform" d)
  | None => o = d
  end.

(** The entry that the loop of [_convert_triggers] produces from [d]. *)
Definition renamed_entry (d : dict) : dict :=
  match PyDict.get "platform" d with
  | Some v => PyDict.del "platform" (PyDict.set "trigger" v d)
  | None => d
  end.

(** The renames of [convert_automation] that apply to [d], in the order
    the method tries them. *)
Definition applied_renames (d : dict) : list string :=
  (if PyDict.contains "trigger" d then ["trigger → triggers"] else []) ++
  (if PyDict.contains "condition" d then ["condition → conditions"] else []) ++
  (if PyDict.contains "action" d then ["action → actions"] else []).

(** What the three steps leave of [d], given the converted trigger list. *)
Definition renamed_keys (triggers : list Node) (d : dict) : dict :=
  let d1 :=
    if PyDict.contains "trigger" d
    then PyDict.del "trigger" (PyDict.set "triggers" (Sequence triggers) d)
    else d in
  let d2 :=
    match PyDict.get "condition" d1 with
    | Some v => PyDict.del "condition" (PyDict.set "conditions" v d1)
    | None => d1
    end in
  match PyDict.get "action" d2 with
  | Some v => PyDict.del "action" (PyDict.set "actions" v d2)
  | None => d2
  end.

(** The trigger list the first step computes, [[]] when there is no
    [trigger] key. *)
Definition trigger_list (d : dict) : result (list Node) :=
  match PyDict.get "trigger" d with
  | Some t => _convert_triggers t
  | None => Ok []
  end.

Definition has_old_keys (d : dict) : bool :=
  PyDict.any_key_in ["trigger"; "condition"; "action"] d.

Definition has_new_keys (d : dict) : bool :=
  PyDict.any_key_in ["triggers"; "conditions"; "actions"] d.

Definition alias_of (d : dict) : Node :=
  PyDict.get_default "alias" (PyStr "Unnamed automation") d.

Definition log_entries (self : HAYamlConverter) (entries : list string)
  : HAYamlConverter :=
  mkConverter (changes_log self ++ entries) (total_stats self).

(** Bytes [10xxxxxx] only. *)
Definition continuation_only (s : string) : bool :=
  forallb PyString.is_continuation (list_ascii_of_string s).

(** One code point: a first byte and its continuation bytes. *)
Definition one_char (s : string) : Prop :=
  exists c rest, s = String c rest /\ continuation_only rest = true.

Definition is_mapping (node : Node) : bool :=
  match node with
  | Mapping _ => true
  | _ => false
  end.

(** The claim that one policy covers every element that is not a
    mapping: all of them are rejected, or all of them pass unchanged. *)
Definition single_policy_for_non_mappings : Prop :=
  (forall x : Node, is_mapping x = false ->
                    exists e, _convert_triggers (Sequence [x]) = Raise e)
  \/ (forall x : Node, is_mapping x = false ->
                       _convert_triggers (Sequence [x]) = Ok [x]).

(** What the claim about sequences says an element becomes: an
    automation is converted, any other element is walked recursively. *)
Definition recursing_item (py_str : Node -> string) (item : Node)
  : Method Node :=
  if _is_automation item then convert_automation py_str item
  else _convert_yaml_data py_str item.

(** The rewrite of one [key: value] entry of a mapping that is not an
    automation. *)
Definition rewrite_entry (recurse : Node -> Method Node)
    (kv : string * Node) : Method (string * Node) :=
  if String.eqb (fst kv) "automation" then
    value' <- recurse (snd kv) ;; ret (fst kv, value')
  else ret kv.

(** What a list element [item] becomes, [self] being any converter. *)
Definition item_result (py_str : Node -> string)
    (self : HAYamlConverter) (item o : Node) : Prop :=
  if _is_automation item
  then fst (convert_automation py_str item self) = Ok o
  else o = item.

Definition item_raises (py_str : Node -> string)
    (self : HAYamlConverter) (e : PyError) (item : Node) : Prop :=
  _is_automation item = true /\
  fst (convert_automation py_str item self) = Raise e.

(** ** Sample documents *)

(** The rendering of a label that is a string: the string itself.  The
    sample documents below have string labels only. *)
Definition str_label (alias : Node) : string :=
  match alias with
  | Scalar (SStr s) => s
  | _ => EmptyString
  end.

(** [HAYamlConverter()]: an empty log and zeroed totals. *)
Definition new_converter : HAYamlConverter :=
  mkConverter [] (mkStats 0 0 0).

Definition state_trigger : Node :=
  Mapping [("platform", PyStr "state"); ("entity_id", PyStr "x")].

Definition state_trigger_new : Node :=
  Mapping [("entity_id", PyStr "x"); ("trigger", PyStr "state")].

(** An automation recognised by its label alone. *)
Definition alias_only : dict := [("alias", PyStr "A")].

(** A list whose element is no automation but holds some under
    [automation]. *)
Definition nested_container : list Node :=
  [Mapping [("automation",
             Sequence [Mapping [("trigger", state_trigger)]])]].

(** [{automation: [{alias: A, trigger: {...}}], other_key: {trigger: {...}}}] *)
Definition config_document : dict :=
  [("automation",
    Sequence [Mapping [("alias", PyStr "A"); ("trigger", state_trigger)]]);
   ("other_key", Mapping [("trigger", state_trigger)])].

Definition new_automation : dict :=
  [("alias", PyStr "N"); ("triggers", Sequence [state_trigger_new])].

Definition old_automation : dict :=
  [("alias", PyStr "O"); ("trigger", state_trigger);
   ("condition", Sequence []); ("action", Sequence [])].

Definition trigger_only : dict :=
  [("alias", PyStr "T"); ("trigger", state_trigger)].

(** An automation converted by hand in part: [trigger] and [triggers]. *)
Definition half_converted : dict :=
  [("alias", PyStr "H"); ("triggers", Sequence [PyStr "stale"]);
   ("trigger", state_trigger); ("action", Sequence [])].

(** A mapping with [trigger] whose value no conversion accepts. *)
Definition bad_trigger : dict := [("trigger", Scalar (SInt 5))].

(** ** The file and directory drivers *)

(** [str(n)] for a length *)
Definition py_str_of_nat (n : nat) : string :=
  NilEmpty.string_of_uint (Nat.to_uint n).

(** The line feed of the report. *)
Definition newline : string := String (ascii_of_nat 10) EmptyString.

(** [total_stats[k] += file_stats[k]] for the three counters *)
Definition add_stats (total_stats file_stats : Stats) : Stats :=
  mkStats (converted total_stats + converted file_stats)
          (already_new total_stats + already_new file_stats)
          (total total_stats + total file_stats).

Definition zero_stats : Stats := mkStats 0 0 0.

(** The [results] dict of [convert_directory], from path to success. *)
Fixpoint results_set (path : string) (success : bool)
    (results : list (string * bool)) : list (string * bool) :=
  match results with
  | [] => [(path, success)]
  | (path', success') :: rest =>
      if String.eqb path path' then (path', success) :: rest
      else (path', success') :: results_set path success rest
  end.

Fixpoint results_get (path : string) (results : list (string * bool))
  : option bool :=
  match results with
  | [] => None
  | (path', success) :: rest =>
      if String.eqb path path' then Some success else results_get path rest
  end.

(** What the file system gives for one path: the parsed content, [None]
    when opening or parsing raises; and whether writing a tree to the
    output path goes through. *)
Record YamlFile : Type := mkYamlFile {
  path : string;
  loaded : option Node;
  dump_succeeds : Node -> bool
}.

(** [convert_directory] raises [ValueError] or returns [results]. *)
Inductive DirectoryOutcome : Type :=
| ValueError
| Results (results : list (string * bool)).

Section Drivers.

Variable py_str : Node -> string.

(** [convert_file]: every exception is caught and turned into [False]. *)
Definition convert_file (input_file : YamlFile) (self : HAYamlConverter)
  : bool * HAYamlConverter :=
  match loaded input_file with
  | None => (false, self)
  | Some data =>
      let self := mkConverter [] (total_stats self) in
      match _convert_yaml_data py_str data self with
      | (Raise _, self) => (false, self)
      | (Ok converted_data, self) =>
          let file_stats := get_summary_stats self in
          let self :=
            mkConverter (changes_log self)
                        (add_stats (total_stats self) file_stats) in
          if dump_succeeds input_file converted_data then (true, self)
          else (false, self)
      end
  end.

(** The [for yaml_file in sorted(yaml_files)] loop of
    [convert_directory]. *)
Fixpoint convert_files (yaml_files : list YamlFile)
    (results : list (string * bool)) (self : HAYamlConverter)
  : list (string * bool) * HAYamlConverter :=
  match yaml_files with
  | [] => (results, self)
  | yaml_file :: rest =>
      let (success, self) := convert_file yaml_file self in
      convert_files rest (results_set (path yaml_file) success results) self
  end.

(** [convert_directory], [yaml_files] being the sorted list of the files
    the two globs find. *)
Definition convert_directory (is_dir : bool) (yaml_files : list YamlFile)
    (self : HAYamlConverter) : DirectoryOutcome * HAYamlConverter :=
  if negb is_dir then (ValueError, self)
  else
    let self := mkConverter (changes_log self) zero_stats in
    let results : list (string * bool) := [] in
    match yaml_files with
    | [] => (Results results, self)
    | _ :: _ =>
        let (results, self) := convert_files yaml_files results self in
        (Results results, self)
    end.

End Drivers.

(** [get_changes_report] *)
Definition get_changes_report (self : HAYamlConverter) : string :=
  match changes_log self with
  | [] => "Nessuna modifica necessaria."
  | _ :: _ =>
      let converted := filter (PyString.startswith "✓") (changes_log self) in
      let already_new := filter (PyString.startswith "⚪") (changes_log self) in
      let report := ("📋 Report conversione:" ++ newline)%string in
      let report :=
        match converted with
        | [] => report
        | _ :: _ =>
            (report ++ newline ++ "✅ Automazioni convertite (" ++
             py_str_of_nat (List.length converted) ++ "):" ++ newline ++
             PyString.join newline converted)%string
        end in
      let report :=
        match already_new with
        | [] => report
        | _ :: _ =>
            (report ++ newline ++ newline ++
             "⚪ Automazioni già aggiornate (" ++
             py_str_of_nat (List.length already_new) ++ "):" ++ newline ++
             PyString.join newline already_new)%string
        end in
      (report ++ newline ++ newline ++ "📊 Totale processate: " ++
       py_str_of_nat (List.length (changes_log self)))%string
  end.

(** [get_total_stats] *)
Definition get_total_stats (self : HAYamlConverter) : Stats :=
  total_stats self.

(** ** Vocabulary for the whole document *)

(** A log entry as the converter writes it: it starts with the check
    mark or with the white circle, never with both. *)
Definition marked (entry : string) : Prop :=
  xorb (PyString.startswith "✓" entry) (PyString.startswith "⚪" entry) = true.

(** A method that only appends [entries] satisfying [P] to the log and
    whose result and entries do not depend on the converter. *)
Definition appends_only {A : Type} (P : string -> Prop) (m : Method A) : Prop :=
  exists (r : result A) (entries : list string),
    Forall P entries /\
    forall self : HAYamlConverter, m self = (r, log_entries self entries).

(** Every mapping of the document has pairwise distinct keys. *)
Fixpoint unique_keys (n : Node) : Prop :=
  match n with
  | Mapping items =>
      NoDup (PyDict.keys items) /\
      (fix all (l : list (string * Node)) : Prop :=
         match l with
         | [] => True
         | kv :: rest => unique_keys (snd kv) /\ all rest
         end) items
  | Sequence elems =>
      (fix all (l : list Node) : Prop :=
         match l with
         | [] => True
         | x :: rest => unique_keys x /\ all rest
         end) elems
  | Scalar _ => True
  end.

(** The keys [convert_automation] reads or writes. *)
Definition rename_keys : list string :=
  ["trigger"; "triggers"; "condition"; "conditions"; "action"; "actions"].

(** [d] without the entries under the keys [ks]. *)
Definition without_keys (ks : list string) (d : dict) : dict :=
  filter (fun kv => negb (existsb (String.eqb (fst kv)) ks)) d.

(** The statistics [convert_file] adds for one file: those of converting
    its content with an empty log; nothing when it cannot be read or
    converted. *)
Definition counted_stats (py_str : Node -> string) (f : YamlFile) : Stats :=
  match loaded f with
  | None => zero_stats
  | Some data =>
      match _convert_yaml_data py_str data (mkConverter [] zero_stats) with
      | (Ok _, self) => get_summary_stats self
      | (Raise _, _) => zero_stats
      end
  end.

Definition sum_stats (l : list Stats) : Stats :=
  fold_left add_stats l zero_stats.

(** A document in which [_convert_yaml_data] meets no automation: a
    scalar; a list with no automation among its elements; a mapping with
    distinct keys that is no automation and whose value under
    [automation], if any, is such a document. *)
Fixpoint automation_free (n : Node) : Prop :=
  match n with
  | Mapping items =>
      _is_automation n = false /\
      NoDup (PyDict.keys items) /\
      (fix all (l : list (string * Node)) : Prop :=
         match l with
         | [] => True
         | kv :: rest =>
             (fst kv = "automation" -> automation_free (snd kv)) /\ all rest
         end) items
  | Sequence elems =>
      forallb (fun x => negb (_is_automation x)) elems = true
  | Scalar _ => True
  end.

(** A configuration with a dashboard and an empty automation section. *)
Definition dashboard_document : Node :=
  Mapping [("name", PyStr "My House");
           ("views", Sequence [Mapping [("title", PyStr "Home")]]);
           ("automation", Sequence [PyStr "none"])].


(** A method whose only exception is [e0]. *)
Definition only_raises {A : Type} (e0 : PyError) (m : Method A) : Prop :=
  forall (self : HAYamlConverter) (e : PyError),
    fst (m self) = Raise e -> e = e0.

(** * Properties *)

(** ** Dictionary lemmas *)

Module PyDictFacts.
Import PyDict.

Lemma contains_get (k : string) (d : dict) :
  contains k d = match get k d with Some _ => true | None => false end.
Proof.
  unfold contains, keys.
  induction d as [|[k' v] rest IH]; simpl; [reflexivity|].
  destruct (String.eqb k k'); simpl; [reflexivity | exact IH].
Qed.

Lemma contains_In (k : string) (d : dict) :
  contains k d = true <-> In k (keys d).
Proof.
  unfold contains. rewrite existsb_exists. split.
  - intros [x [Hx Heq]]. apply String.eqb_eq in Heq. now subst.
  - intros H. exists k. split; [assumption | apply String.eqb_refl].
Qed.

Lemma get_set (k k' : string) (v : Node) (d : dict) :
  get k (set k' v d) = if String.eqb k k' then Some v else get k d.
Proof.
  induction d as [|[k0 v0] rest IH]; simpl.
  - destruct (String.eqb k k'); reflexivity.
  - destruct (String.eqb k' k0) eqn:E0; simpl.
    + apply String.eqb_eq in E0. subst k0.
      destruct (String.eqb k k'); reflexivity.
    + destruct (String.eqb k k0) eqn:E1.
      * apply String.eqb_eq in E1. subst k0.
        rewrite String.eqb_sym, E0. reflexivity.
      * exact IH.
Qed.

Lemma get_del (k k' : string) (d : dict) :
  get k (del k' d) = if String.eqb k k' then None else get k d.
Proof.
  unfold del.
  induction d as [|[k0 v0] rest IH]; simpl.
  - destruct (String.eqb k k'); reflexivity.
  - destruct (String.eqb k' k0) eqn:E0; simpl.
    + apply String.eqb_eq in E0. subst k0. rewrite IH.
      destruct (String.eqb k k'); reflexivity.
    + rewrite IH. destruct (String.eqb k k0) eqn:E1; [|reflexivity].
      apply String.eqb_eq in E1. subst k0.
      rewrite String.eqb_sym, E0. reflexivity.
Qed.

Lemma contains_set (k k' : string) (v : Node) (d : dict) :
  contains k (set k' v d) = String.eqb k k' || contains k d.
Proof.
  rewrite !contains_get, get_set.
  destruct (String.eqb k k'); reflexivity.
Qed.

Lemma contains_del (k k' : string) (d : dict) :
  contains k (del k' d) = negb (String.eqb k k') && contains k d.
Proof.
  rewrite !contains_get, get_del.
  destruct (String.eqb k k'); reflexivity.
Qed.

(** Assigning to a key that is present changes neither the keys nor
    their order. *)
Lemma keys_set_present (k : string) (v : Node) (d : dict) :
  contains k d = true -> keys (set k v d) = keys d.
Proof.
  unfold contains, keys.
  induction d as [|[k0 v0] rest IH]; simpl; [discriminate|].
  destruct (String.eqb k k0); simpl; [reflexivity|].
  intros H. now rewrite IH.
Qed.

(** Assigning to a key that is absent appends it. *)
Lemma set_absent (k : string) (v : Node) (d : dict) :
  contains k d = false -> set k v d = d ++ [(k, v)].
Proof.
  unfold contains, keys.
  induction d as [|[k0 v0] rest IH]; simpl; [reflexivity|].
  destruct (String.eqb k k0); simpl; [discriminate|].
  intros H. now rewrite IH.
Qed.

(** Deleting a key that is absent changes nothing. *)
Lemma del_absent (k : string) (d : dict) :
  contains k d = false -> del k d = d.
Proof.
  unfold contains, keys, del.
  induction d as [|[k0 v0] rest IH]; simpl; [reflexivity|].
  destruct (String.eqb k k0); simpl; [discriminate|].
  intros H. now rewrite IH.
Qed.

Lemma del_app (k : string) (d1 d2 : dict) :
  del k (d1 ++ d2) = del k d1 ++ del k d2.
Proof. unfold del. apply filter_app. Qed.

End PyDictFacts.

Create Rewrite HintDb pydict.
#[global] Hint Rewrite PyDictFacts.contains_set PyDictFacts.contains_del
  PyDictFacts.get_set PyDictFacts.get_del : pydict.

Module PyDictOrder.
Import PyDict.

Lemma del_set_same (k : string) (v : Node) (d : dict) :
  del k (set k v d) = del k d.
Proof.
  unfold del.
  induction d as [|[k0 v0] rest IH]; simpl.
  - now rewrite String.eqb_refl.
  - destruct (String.eqb k k0) eqn:E; simpl; rewrite E; simpl.
    + reflexivity.
    + now rewrite IH.
Qed.

Lemma del_comm (k k' : string) (d : dict) :
  del k (del k' d) = del k' (del k d).
Proof.
  unfold del.
  induction d as [|[k0 v0] rest IH]; simpl; [reflexivity|].
  destruct (String.eqb k' k0) eqn:E'; destruct (String.eqb k k0) eqn:E;
    simpl; rewrite ?E, ?E'; simpl; now rewrite ?IH.
Qed.

End PyDictOrder.

(** ** The shape classifier *)

Lemma any_key_in_3 (k1 k2 k3 : string) (d : dict) :
  PyDict.any_key_in [k1; k2; k3] d = true <->
  has_key k1 d \/ has_key k2 d \/ has_key k3 d.
Proof.
  unfold PyDict.any_key_in, has_key. simpl.
  rewrite !orb_true_iff, !PyDictFacts.contains_In. intuition discriminate.
Qed.

(** C2. [_is_new_syntax] answers [True] exactly for a mapping that has at
    least one of the keys [triggers], [conditions], [actions] and none of
    the keys [trigger], [condition], [action]; for a sequence and for a
    scalar it answers [False]. *)
Theorem is_new_syntax_iff :
  (forall node : Node,
      _is_new_syntax node = true <->
      exists d : dict,
        node = Mapping d /\
        (has_key "triggers" d \/ has_key "conditions" d \/ has_key "actions" d) /\
        ~ (has_key "trigger" d \/ has_key "condition" d \/ has_key "action" d))
  /\ (forall elems : list Node, _is_new_syntax (Sequence elems) = false)
  /\ (forall v : ScalarValue, _is_new_syntax (Scalar v) = false).
Proof.
  split; [|split; reflexivity].
  intros node; split.
  - destruct node as [d| |]; unfold _is_new_syntax; try discriminate.
    intros H. apply andb_true_iff in H. destruct H as [Hnew Hold].
    exists d. split; [reflexivity|]. split.
    + now apply any_key_in_3.
    + intros Habs. apply any_key_in_3 in Habs.
      rewrite Habs in Hold. discriminate.
  - intros [d [-> [Hnew Hold]]]. unfold _is_new_syntax.
    apply andb_true_iff. split.
    + now apply any_key_in_3.
    + apply negb_true_iff. apply not_true_is_false.
      intros Habs. apply Hold. now apply any_key_in_3.
Qed.

(** ** Trigger normalisation *)

Lemma convert_trigger_mapping (d : dict) :
  convert_trigger (Mapping d) = Ok (Mapping (renamed_entry d)).
Proof.
  unfold convert_trigger, renamed_entry. simpl.
  rewrite PyDictFacts.contains_get.
  destruct (PyDict.get "platform" d) as [v|] eqn:E; simpl; [|reflexivity].
  rewrite PyDictFacts.contains_set, PyDictFacts.contains_get, E.
  reflexivity.
Qed.

Lemma renamed_entry_ok (d : dict) : platform_renamed d (renamed_entry d).
Proof.
  unfold platform_renamed, renamed_entry.
  destruct (PyDict.get "platform" d) as [v|] eqn:E; [|reflexivity].
  repeat split.
  - now autorewrite with pydict.
  - now autorewrite with pydict.
  - intros k Hp Ht. autorewrite with pydict.
    apply String.eqb_neq in Hp, Ht. now rewrite Hp, Ht.
  - rewrite PyDictOrder.del_comm, PyDictOrder.del_set_same.
    apply PyDictOrder.del_comm.
Qed.

Lemma convert_triggers_mappings (ds : list dict) :
  mapM convert_trigger (map Mapping ds) =
  Ok (map Mapping (map renamed_entry ds)).
Proof.
  induction ds as [|d ds IH]; [reflexivity|].
  cbn [map mapM]. rewrite convert_trigger_mapping. cbn [bind result_Monad].
  rewrite IH. reflexivity.
Qed.

(** C3. [_convert_triggers] wraps a bare mapping into a one-element list
    and renames [platform] to [trigger] inside each entry.  For
    [{platform: state, entity_id: x}] the result is one mapping with the
    entries [trigger: state] and [entity_id: x] (the untouched key first,
    the renamed key after it); a bare mapping gives what the one-element
    list of it gives; for a list of [n] mappings the result has the same
    length and order, each entry renamed independently with its other
    keys untouched. *)
Theorem convert_triggers_normalises :
  (forall state x : Node,
      exists entry : dict,
        _convert_triggers (Mapping [("platform", state); ("entity_id", x)]) =
          Ok [Mapping entry] /\
        entry = [("entity_id", x); ("trigger", state)] /\
        Permutation entry [("trigger", state); ("entity_id", x)])
  /\ (forall d : dict,
         _convert_triggers (Mapping d) = _convert_triggers (Sequence [Mapping d]))
  /\ (forall ds : list dict,
         exists outs : list dict,
           _convert_triggers (Sequence (map Mapping ds)) = Ok (map Mapping outs) /\
           List.length outs = List.length ds /\
           Forall2 platform_renamed ds outs).
Proof.
  split; [|split].
  - intros state x. eexists. split; [reflexivity|]. split; [reflexivity|].
    apply perm_swap.
  - reflexivity.
  - intros ds. exists (map renamed_entry ds). split; [|split].
    + unfold _convert_triggers. cbn [PyNode.iter bind result_Monad].
      apply convert_triggers_mappings.
    + apply length_map.
    + induction ds as [|d ds IH]; constructor;
        [apply renamed_entry_ok | exact IH].
Qed.

(** ** Rewriting one automation *)

Section AutomationFacts.

Variable py_str : Node -> string.

Lemma log_entries_nil (self : HAYamlConverter) : log_entries self [] = self.
Proof. destruct self. unfold log_entries. simpl. now rewrite app_nil_r. Qed.

(** [convert_automation] on a mapping, in closed form: the unchanged
    mapping and a white-circle entry when it is already in new syntax;
    otherwise the renamed mapping and, when some rename applied, a
    check-mark entry; an exception of [_convert_triggers] passes through
    and leaves the log as it was. *)
Lemma convert_automation_mapping (d : dict) (self : HAYamlConverter) :
  convert_automation py_str (Mapping d) self =
  if _is_new_syntax (Mapping d) then
    (Ok (Mapping d),
     log_entries self
       [("⚪ " ++ py_str (alias_of d) ++ ": già in nuova sintassi")%string])
  else
    match trigger_list d with
    | Raise e => (Raise e, self)
    | Ok ts =>
        (Ok (Mapping (renamed_keys ts d)),
         log_entries self
           match applied_renames d with
           | [] => []
           | _ :: _ =>
               [("✓ " ++ py_str (alias_of d) ++ ": " ++
                 PyString.join ", " (applied_renames d))%string]
           end)
    end.
Proof.
  unfold convert_automation.
  destruct (_is_new_syntax (Mapping d)); [reflexivity|].
  unfold trigger_list, renamed_keys, applied_renames, move_key, alias_of.
  cbn [PyNode.getitem].
  rewrite !(PyDictFacts.contains_get _ d).
  destruct (PyDict.get "trigger" d) as [t|] eqn:Et;
    cbn [bind Method_Monad lift ret];
    [destruct (_convert_triggers t) as [ts|e]; [|reflexivity]|];
    destruct (PyDict.get "condition" d) as [c|] eqn:Ec;
    destruct (PyDict.get "action" d) as [a|] eqn:Ea;
    repeat first
      [ progress rewrite ?PyDictFacts.contains_get
      | progress autorewrite with pydict
      | progress cbn [String.eqb Ascii.eqb Bool.eqb negb andb orb]
      | progress rewrite ?Et, ?Ec, ?Ea
      | progress cbn [bind Method_Monad lift ret app log_append] ];
    try reflexivity; now rewrite log_entries_nil.
Qed.

(** The value [convert_automation] returns does not depend on the
    converter it runs in. *)
Lemma convert_automation_value (a : Node) (self self' : HAYamlConverter) :
  fst (convert_automation py_str a self) =
  fst (convert_automation py_str a self').
Proof.
  destruct a as [d|elems|v]; [|reflexivity|reflexivity].
  rewrite !convert_automation_mapping.
  destruct (_is_new_syntax (Mapping d)); [reflexivity|].
  destruct (trigger_list d); reflexivity.
Qed.

End AutomationFacts.

(** Normalising dictionary look-ups on literal keys. *)
Ltac dict_simpl :=
  repeat first
    [ progress rewrite ?PyDictFacts.contains_get in *
    | progress autorewrite with pydict in *
    | progress cbn [String.eqb Ascii.eqb Bool.eqb negb andb orb] in * ].

Ltac dict_cases d :=
  destruct (PyDict.get "trigger" d) eqn:?;
  destruct (PyDict.get "condition" d) eqn:?;
  destruct (PyDict.get "action" d) eqn:?.

Lemma renamed_keys_no_old (ts : list Node) (d : dict) :
  has_old_keys (renamed_keys ts d) = false.
Proof.
  unfold has_old_keys, renamed_keys, PyDict.any_key_in. cbn [existsb].
  rewrite !PyDictFacts.contains_get.
  dict_cases d; dict_simpl;
    repeat match goal with H : PyDict.get _ d = _ |- _ => rewrite H end;
    dict_simpl;
    repeat match goal with H : PyDict.get _ d = _ |- _ => rewrite H end;
    dict_simpl;
    repeat match goal with H : PyDict.get _ d = _ |- _ => rewrite H end;
    reflexivity.
Qed.

Lemma renamed_keys_some_new (ts : list Node) (d : dict) :
  has_old_keys d = true -> has_new_keys (renamed_keys ts d) = true.
Proof.
  unfold has_old_keys, has_new_keys, renamed_keys, PyDict.any_key_in.
  cbn [existsb]. rewrite !PyDictFacts.contains_get.
  dict_cases d; intros Hold; try discriminate Hold; clear Hold; dict_simpl;
    repeat match goal with H : PyDict.get _ d = _ |- _ => rewrite H end;
    dict_simpl;
    repeat match goal with H : PyDict.get _ d = _ |- _ => rewrite H end;
    dict_simpl;
    repeat match goal with H : PyDict.get _ d = _ |- _ => rewrite H end;
    try reflexivity;
    repeat match goal with
      | |- context [match ?x with Some _ => true | None => false end] =>
          destruct x
      end; reflexivity.
Qed.

Lemma no_old_keys_unchanged (ts : list Node) (d : dict) :
  has_old_keys d = false ->
  renamed_keys ts d = d /\ applied_renames d = [] /\ trigger_list d = Ok [].
Proof.
  unfold has_old_keys, renamed_keys, applied_renames, trigger_list,
    PyDict.any_key_in.
  cbn [existsb]. rewrite !PyDictFacts.contains_get.
  dict_cases d; intros Hold; try discriminate Hold.
  repeat match goal with H : PyDict.get _ d = _ |- _ => rewrite H end.
  repeat split.
Qed.

Lemma old_keys_renames (d : dict) :
  has_old_keys d = true -> applied_renames d <> [].
Proof.
  unfold has_old_keys, applied_renames, PyDict.any_key_in.
  cbn [existsb]. rewrite !PyDictFacts.contains_get.
  dict_cases d; intros Hold; try discriminate Hold; discriminate.
Qed.

Lemma is_new_syntax_keys (d : dict) :
  _is_new_syntax (Mapping d) = has_new_keys d && negb (has_old_keys d).
Proof. reflexivity. Qed.

Lemma six_keys_old_or_new (d : dict) :
  PyDict.any_key_in
    ["trigger"; "triggers"; "condition"; "conditions"; "action"; "actions"] d =
  has_old_keys d || has_new_keys d.
Proof.
  unfold has_old_keys, has_new_keys, PyDict.any_key_in. cbn [existsb].
  destruct (PyDict.contains "trigger" d), (PyDict.contains "triggers" d),
    (PyDict.contains "condition" d), (PyDict.contains "conditions" d),
    (PyDict.contains "action" d), (PyDict.contains "actions" d); reflexivity.
Qed.

(** The only exception of [_convert_triggers] is [TypeError]. *)
Lemma convert_trigger_raises (x : Node) (e : PyError) :
  convert_trigger x = Raise e -> e = TypeError.
Proof.
  destruct x as [d|elems|v].
  - rewrite convert_trigger_mapping. discriminate.
  - unfold convert_trigger. cbn.
    destruct (existsb (PyNode.is_str "platform") elems); cbn; congruence.
  - unfold convert_trigger. destruct v; cbn; try congruence.
    destruct (PyString.contains "platform" s); cbn; congruence.
Qed.

Lemma mapM_convert_trigger_raises (l : list Node) (e : PyError) :
  mapM convert_trigger l = Raise e -> e = TypeError.
Proof.
  induction l as [|x l IH]; cbn [mapM bind ret result_Monad]; [discriminate|].
  destruct (convert_trigger x) eqn:Ex.
  - destruct (mapM convert_trigger l); [discriminate|].
    intros H. apply IH. congruence.
  - intros H. apply (convert_trigger_raises x). congruence.
Qed.

Lemma convert_triggers_raises (t : Node) (e : PyError) :
  _convert_triggers t = Raise e -> e = TypeError.
Proof.
  unfold _convert_triggers.
  destruct t as [d|elems|v]; cbn [PyNode.iter bind result_Monad].
  - apply mapM_convert_trigger_raises.
  - apply mapM_convert_trigger_raises.
  - destruct v; try congruence. apply mapM_convert_trigger_raises.
Qed.

Module PyDictSet.
Import PyDict.

Lemma set_set_same (k : string) (v v' : Node) (d : dict) :
  set k v (set k v' d) = set k v d.
Proof.
  induction d as [|[k0 v0] rest IH]; simpl.
  - now rewrite String.eqb_refl.
  - destruct (String.eqb k k0) eqn:E; simpl; rewrite E; [reflexivity|].
    now rewrite IH.
Qed.

End PyDictSet.

Section AutomationTheorems.

Variable py_str : Node -> string.

(** C1. [convert_automation] is idempotent on the value it returns:
    converting the result of a conversion returns that same result, and
    when the first conversion raises, so does the composition. *)
Theorem convert_automation_idempotent (a : Node) (self : HAYamlConverter) :
  fst ((r <- convert_automation py_str a ;; convert_automation py_str r) self) =
  fst (convert_automation py_str a self).
Proof.
  destruct a as [d|elems|v]; [|reflexivity|reflexivity].
  cbn [bind Method_Monad].
  rewrite (convert_automation_mapping py_str d self).
  destruct (_is_new_syntax (Mapping d)) eqn:Enew.
  - rewrite convert_automation_mapping, Enew. reflexivity.
  - destruct (trigger_list d) as [ts|e] eqn:Ets; [|reflexivity].
    rewrite convert_automation_mapping, is_new_syntax_keys.
    destruct (has_old_keys d) eqn:Eold.
    + rewrite renamed_keys_some_new by assumption.
      rewrite renamed_keys_no_old. reflexivity.
    + destruct (no_old_keys_unchanged ts d Eold) as [Hr [Ha Ht]].
      rewrite Hr, <- is_new_syntax_keys, Enew, Ht.
      cbn [fst]. f_equal. f_equal.
      apply (no_old_keys_unchanged [] d Eold).
Qed.

(** C6, amended.  For a mapping with at least one of the keys [trigger],
    [triggers], [condition], [conditions], [action], [actions],
    [convert_automation] returns a mapping that [_is_new_syntax] accepts,
    unless the mapping has a [trigger] value that [_convert_triggers]
    rejects with [TypeError].  A mapping with none of these six keys,
    [alias] or not, is returned as it is and is not in new syntax. *)
Theorem converted_is_new_syntax (d : dict) (self : HAYamlConverter) :
  (PyDict.any_key_in
     ["trigger"; "triggers"; "condition"; "conditions"; "action"; "actions"]
     d = true ->
   (exists (r : Node) (self' : HAYamlConverter),
       convert_automation py_str (Mapping d) self = (Ok r, self') /\
       _is_new_syntax r = true)
   \/ (exists t : Node,
          PyDict.get "trigger" d = Some t /\
          _convert_triggers t = Raise TypeError /\
          convert_automation py_str (Mapping d) self = (Raise TypeError, self)))
  /\ (PyDict.any_key_in
        ["trigger"; "triggers"; "condition"; "conditions"; "action"; "actions"]
        d = false ->
      convert_automation py_str (Mapping d) self = (Ok (Mapping d), self) /\
      _is_new_syntax (Mapping d) = false).
Proof.
  rewrite six_keys_old_or_new, convert_automation_mapping. split.
  - intros Hkeys.
    destruct (_is_new_syntax (Mapping d)) eqn:Enew.
    + left. eauto.
    + rewrite is_new_syntax_keys in Enew.
      destruct (has_old_keys d) eqn:Eold.
      * unfold trigger_list.
        destruct (PyDict.get "trigger" d) as [t|] eqn:Et.
        -- destruct (_convert_triggers t) as [ts|e] eqn:Ec.
           ++ left. do 2 eexists. split; [reflexivity|].
              rewrite is_new_syntax_keys, renamed_keys_some_new,
                renamed_keys_no_old by assumption.
              reflexivity.
           ++ right. exists t.
              pose proof (convert_triggers_raises t e Ec) as He. subst e.
              auto.
        -- left. do 2 eexists. split; [reflexivity|].
           rewrite is_new_syntax_keys, renamed_keys_some_new,
             renamed_keys_no_old by assumption.
           reflexivity.
      * cbn [orb] in Hkeys. rewrite Hkeys in Enew. discriminate.
  - intros Hkeys. apply orb_false_iff in Hkeys. destruct Hkeys as [Hold Hnew].
    rewrite is_new_syntax_keys, Hnew. cbn [andb].
    destruct (no_old_keys_unchanged [] d Hold) as [Hr [Ha Ht]].
    rewrite Ht, Hr, Ha, log_entries_nil. auto.
Qed.

(** C8, amended.  A call of [convert_automation] on a mapping appends
    one entry when the mapping is already in new syntax (the white-circle
    entry) and one entry when it has an old key and the conversion returns
    (the check-mark entry, listing the applied renames in order); it
    appends nothing when the mapping has neither an old key nor the
    new-only shape, and nothing when the conversion raises.  On a node
    that is not a mapping the call raises and appends nothing. *)
Theorem convert_automation_records (d : dict) (self : HAYamlConverter) :
  changes_log (snd (convert_automation py_str (Mapping d) self)) =
    changes_log self ++
    (if _is_new_syntax (Mapping d) then
       [("⚪ " ++ py_str (alias_of d) ++ ": già in nuova sintassi")%string]
     else
       match fst (convert_automation py_str (Mapping d) self) with
       | Raise _ => []
       | Ok _ =>
           if has_old_keys d then
             [("✓ " ++ py_str (alias_of d) ++ ": " ++
               PyString.join ", " (applied_renames d))%string]
           else []
       end)
  /\ (forall elems : list Node,
         convert_automation py_str (Sequence elems) self =
         (Raise AttributeError, self))
  /\ (forall v : ScalarValue,
         convert_automation py_str (Scalar v) self =
         (Raise AttributeError, self)).
Proof.
  split; [|split; reflexivity].
  rewrite convert_automation_mapping.
  destruct (_is_new_syntax (Mapping d)); [reflexivity|].
  destruct (trigger_list d) as [ts|e]; cbn [fst snd];
    [|now rewrite app_nil_r].
  destruct (has_old_keys d) eqn:Eold.
  - pose proof (old_keys_renames d Eold) as Hne.
    destruct (applied_renames d); [contradiction|reflexivity].
  - destruct (no_old_keys_unchanged ts d Eold) as [_ [Ha _]].
    rewrite Ha. reflexivity.
Qed.

(** C10.  When a mapping has both [trigger] and [triggers],
    [convert_automation] replaces the value under [triggers] by the list
    [_convert_triggers] computes from the value under [trigger], removes
    [trigger], and still moves [condition] and [action] to [conditions]
    and [actions]; the result is the same whatever the value under
    [triggers] was.  When [_convert_triggers] raises, so does the call. *)
Theorem partial_conversion_overwrites
    (d : dict) (t old : Node) (self : HAYamlConverter) :
  PyDict.get "trigger" d = Some t ->
  PyDict.get "triggers" d = Some old ->
  match _convert_triggers t with
  | Raise e => convert_automation py_str (Mapping d) self = (Raise e, self)
  | Ok ts =>
      exists d' : dict,
        fst (convert_automation py_str (Mapping d) self) = Ok (Mapping d') /\
        PyDict.get "triggers" d' = Some (Sequence ts) /\
        PyDict.contains "trigger" d' = false /\
        PyDict.contains "condition" d' = false /\
        PyDict.contains "action" d' = false /\
        (PyDict.contains "condition" d = true ->
         PyDict.get "conditions" d' = PyDict.get "condition" d) /\
        (PyDict.contains "action" d = true ->
         PyDict.get "actions" d' = PyDict.get "action" d) /\
        (forall old' : Node,
            fst (convert_automation py_str
                   (Mapping (PyDict.set "triggers" old' d)) self) =
            Ok (Mapping d'))
  end.
Proof.
  intros Ht Hold.
  assert (Hnot : forall d0, PyDict.get "trigger" d0 = Some t ->
                            _is_new_syntax (Mapping d0) = false).
  { intros d0 H0. rewrite is_new_syntax_keys.
    unfold has_old_keys, PyDict.any_key_in. cbn [existsb].
    rewrite (PyDictFacts.contains_get "trigger"), H0.
    cbn [orb negb]. apply andb_false_r. }
  rewrite convert_automation_mapping, (Hnot d Ht).
  unfold trigger_list. rewrite Ht.
  destruct (_convert_triggers t) as [ts|e] eqn:Ec; [|reflexivity].
  exists (renamed_keys ts d). split; [reflexivity|].
  repeat split.
  - unfold renamed_keys. rewrite !PyDictFacts.contains_get, Ht.
    destruct (PyDict.get "condition" d) eqn:Hc;
      destruct (PyDict.get "action" d) eqn:Ha;
      dict_simpl; rewrite ?Hc, ?Ha; dict_simpl; rewrite ?Hc, ?Ha;
      dict_simpl; reflexivity.
  - pose proof (renamed_keys_no_old ts d) as H.
    unfold has_old_keys, PyDict.any_key_in in H. cbn [existsb] in H.
    now destruct (PyDict.contains "trigger" (renamed_keys ts d)).
  - pose proof (renamed_keys_no_old ts d) as H.
    unfold has_old_keys, PyDict.any_key_in in H. cbn [existsb] in H.
    destruct (PyDict.contains "trigger" (renamed_keys ts d));
      [discriminate|].
    now destruct (PyDict.contains "condition" (renamed_keys ts d)).
  - pose proof (renamed_keys_no_old ts d) as H.
    unfold has_old_keys, PyDict.any_key_in in H. cbn [existsb] in H.
    destruct (PyDict.contains "trigger" (renamed_keys ts d));
      [discriminate|].
    destruct (PyDict.contains "condition" (renamed_keys ts d));
      [discriminate|].
    now destruct (PyDict.contains "action" (renamed_keys ts d)).
  - unfold renamed_keys. rewrite !PyDictFacts.contains_get, Ht.
    destruct (PyDict.get "condition" d) eqn:Hc; [intros _|discriminate].
    destruct (PyDict.get "action" d) eqn:Ha;
      dict_simpl; rewrite ?Hc, ?Ha; dict_simpl; rewrite ?Hc, ?Ha;
      dict_simpl; reflexivity.
  - unfold renamed_keys. rewrite !PyDictFacts.contains_get, Ht.
    destruct (PyDict.get "action" d) eqn:Ha; [intros _|discriminate].
    destruct (PyDict.get "condition" d) eqn:Hc;
      dict_simpl; rewrite ?Hc, ?Ha; dict_simpl; rewrite ?Hc, ?Ha;
      dict_simpl; reflexivity.
  - intros old'.
    assert (Ht' : PyDict.get "trigger" (PyDict.set "triggers" old' d) = Some t).
    { rewrite PyDictFacts.get_set. exact Ht. }
    rewrite convert_automation_mapping, (Hnot _ Ht').
    unfold trigger_list. rewrite Ht', Ec. cbn [fst].
    do 2 f_equal. unfold renamed_keys.
    rewrite (PyDictFacts.contains_get "trigger" (PyDict.set _ _ _)), Ht'.
    rewrite (PyDictFacts.contains_get "trigger" d), Ht.
    rewrite PyDictSet.set_set_same. reflexivity.
Qed.

End AutomationTheorems.

(** ** Trigger values of the wrong shape *)

Module PyStringFacts.
Import PyString.

Lemma chars_cons (s : string) (c : ascii) :
  exists rest tail,
    chars (String c s) = String c rest :: tail /\
    continuation_only rest = true /\ Forall one_char tail.
Proof.
  revert c. induction s as [|c' s IH]; intros c.
  - exists EmptyString, []. repeat split. constructor.
  - destruct (IH c') as [rest [tail [Heq [Hrest Htail]]]].
    change (chars (String c (String c' s))) with
      (if is_continuation c' then
         match chars (String c' s) with
         | h :: t => String c h :: t
         | [] => [String c EmptyString]
         end
       else String c EmptyString :: chars (String c' s)).
    rewrite Heq. destruct (is_continuation c') eqn:Ec.
    + exists (String c' rest), tail. repeat split; [|assumption].
      unfold continuation_only in *. cbn [list_ascii_of_string forallb].
      now rewrite Ec.
    + exists EmptyString, (String c' rest :: tail). repeat split.
      constructor; [|assumption]. now exists c', rest.
Qed.

Lemma chars_one_char (s : string) : Forall one_char (chars s).
Proof.
  destruct s as [|c s]; [constructor|].
  destruct (chars_cons s c) as [rest [tail [Heq [Hrest Htail]]]].
  rewrite Heq. constructor; [|assumption]. now exists c, rest.
Qed.

Lemma continuation_only_no_platform (s : string) :
  continuation_only s = true -> contains "platform" s = false.
Proof.
  induction s as [|x s IH]; [reflexivity|].
  unfold continuation_only. cbn [list_ascii_of_string forallb].
  intros H. apply andb_true_iff in H. destruct H as [Hx Hs].
  cbn [contains String.prefix].
  destruct (ascii_dec "p" x) as [<-|Hne]; [discriminate Hx|].
  rewrite (IH Hs). reflexivity.
Qed.

Lemma one_char_no_platform (s : string) :
  one_char s -> contains "platform" s = false.
Proof.
  intros [c [rest [-> Hrest]]].
  cbn [contains]. rewrite (continuation_only_no_platform rest Hrest).
  rewrite orb_false_r. cbn [String.prefix].
  destruct (ascii_dec "p" c) as [<-|Hne]; [|reflexivity].
  destruct rest as [|x rest]; [reflexivity|].
  unfold continuation_only in Hrest.
  cbn [list_ascii_of_string forallb] in Hrest.
  apply andb_true_iff in Hrest. destruct Hrest as [Hx _].
  cbn [String.prefix].
  destruct (ascii_dec "l" x) as [<-|Hne]; [discriminate Hx|reflexivity].
Qed.

End PyStringFacts.

(** A loop over a list in the exception monad: every item converted, or
    the first exception of some item. *)
Lemma mapM_result_spec {A B : Type} (f : A -> result B) (l : list A) :
  match mapM f l with
  | Ok ys => Forall2 (fun x y => f x = Ok y) l ys
  | Raise e => Exists (fun x => f x = Raise e) l
  end.
Proof.
  induction l as [|x l IH]; cbn [mapM bind ret result_Monad]; [constructor|].
  destruct (f x) as [y|e] eqn:Ex; [|now constructor].
  destruct (mapM f l) as [ys|e]; [now constructor | now apply Exists_cons_tl].
Qed.

Lemma mapM_result_all_ok {A B : Type} (f : A -> result B) (g : A -> B)
    (l : list A) :
  Forall (fun x => f x = Ok (g x)) l -> mapM f l = Ok (map g l).
Proof.
  induction 1 as [|x l Hx Hl IH]; [reflexivity|].
  cbn [mapM map bind ret result_Monad]. now rewrite Hx, IH.
Qed.

(** C5, amended.  [_convert_triggers] has no single policy for input of
    the wrong shape and never raises a dedicated error.  An element that
    is a string without [platform] in it, or a list with no element equal
    to the string [platform], passes unchanged; any other element that is
    not a mapping raises [TypeError].  A list converts when each of its
    elements does, and raises [TypeError] otherwise.  A string given as
    the trigger value yields the list of its characters; any other scalar
    raises [TypeError]. *)
Theorem convert_triggers_wrong_shape :
  (forall x : Node,
      convert_trigger x =
      match x with
      | Mapping d => Ok (Mapping (renamed_entry d))
      | Sequence elems =>
          if existsb (PyNode.is_str "platform") elems
          then Raise TypeError else Ok x
      | Scalar (SStr s) =>
          if PyString.contains "platform" s then Raise TypeError else Ok x
      | Scalar _ => Raise TypeError
      end)
  /\ (forall elems : list Node,
         match _convert_triggers (Sequence elems) with
         | Ok outs => Forall2 (fun x o => convert_trigger x = Ok o) elems outs
         | Raise e =>
             e = TypeError /\
             Exists (fun x => convert_trigger x = Raise TypeError) elems
         end)
  /\ (forall v : ScalarValue,
         _convert_triggers (Scalar v) =
         match v with
         | SStr s => Ok (map PyStr (PyString.chars s))
         | _ => Raise TypeError
         end).
Proof.
  split; [|split].
  - intros [d|elems|v].
    + apply convert_trigger_mapping.
    + unfold convert_trigger. cbn.
      destruct (existsb (PyNode.is_str "platform") elems); reflexivity.
    + unfold convert_trigger. destruct v; cbn; try reflexivity.
  - intros elems.
    pose proof (mapM_result_spec convert_trigger elems) as H.
    pose proof (convert_triggers_raises (Sequence elems)) as He.
    unfold _convert_triggers in *. cbn [PyNode.iter bind result_Monad] in *.
    destruct (mapM convert_trigger elems) as [outs|e]; [exact H|].
    rewrite (He e eq_refl) in *. split; [reflexivity|exact H].
  - intros v. destruct v; try reflexivity.
    unfold _convert_triggers. cbn [PyNode.iter bind result_Monad].
    rewrite <- (map_id (map PyStr (PyString.chars s))) at 2.
    apply mapM_result_all_ok.
    pose proof (PyStringFacts.chars_one_char s) as H.
    induction H as [|c l Hc Hl IH]; constructor; [|exact IH].
    unfold convert_trigger. cbn.
    now rewrite (PyStringFacts.one_char_no_platform c Hc).
Qed.

(** ** Walking a document *)

Section WalkFacts.

Variable py_str : Node -> string.

Lemma mapM_convert_item (self0 : HAYamlConverter) (elems : list Node) :
  forall self : HAYamlConverter,
    match fst (mapM (convert_item py_str) elems self) with
    | Ok outs => Forall2 (item_result py_str self0) elems outs
    | Raise e => Exists (item_raises py_str self0 e) elems
    end.
Proof.
  induction elems as [|item elems IH]; intros self.
  - constructor.
  - cbn [mapM bind ret Method_Monad].
    destruct (convert_item py_str item self) as [[o|e] self1] eqn:Ei.
    + assert (Ho : item_result py_str self0 item o).
      { unfold item_result, convert_item in *.
        destruct (_is_automation item).
        - rewrite (convert_automation_value py_str item self0 self), Ei.
          reflexivity.
        - cbn in Ei. congruence. }
      specialize (IH self1).
      destruct (mapM (convert_item py_str) elems self1) as [[outs|e] self2];
        cbn [fst] in *.
      * now constructor.
      * now apply Exists_cons_tl.
    + cbn [fst]. apply Exists_cons_hd.
      unfold item_raises, convert_item in *.
      destruct (_is_automation item); [|discriminate Ei].
      split; [reflexivity|].
      rewrite (convert_automation_value py_str item self0 self), Ei.
      reflexivity.
Qed.

(** C4, amended.  On a sequence, [_convert_yaml_data] replaces every
    element that [_is_automation] accepts by what [convert_automation]
    returns for it and leaves every other element as it is, without
    walking into it; length and order are kept.  It raises exactly when
    the conversion of some automation element raises. *)
Theorem convert_yaml_data_sequence
    (elems : list Node) (self : HAYamlConverter) :
  match fst (_convert_yaml_data py_str (Sequence elems) self) with
  | Ok out =>
      exists outs : list Node,
        out = Sequence outs /\ Forall2 (item_result py_str self) elems outs
  | Raise e => Exists (item_raises py_str self e) elems
  end.
Proof.
  pose proof (mapM_convert_item self elems self) as H.
  cbn [_convert_yaml_data bind ret Method_Monad].
  destruct (mapM (convert_item py_str) elems self) as [[outs|e] self'];
    cbn [fst] in *.
  - now exists outs.
  - exact H.
Qed.

Lemma convert_items_mapM (recurse : Node -> Method Node)
    (items : list (string * Node)) :
  forall (acc : dict) (self : HAYamlConverter),
    NoDup (PyDict.keys (acc ++ items)) ->
    convert_items recurse items acc self =
    (items' <- mapM (rewrite_entry recurse) items ;; ret (acc ++ items')) self.
Proof.
  induction items as [|[key value] rest IH]; intros acc self Hnd.
  - cbn. now rewrite app_nil_r.
  - assert (Habs : PyDict.contains key acc = false).
    { apply not_true_is_false. intros Hin.
      apply PyDictFacts.contains_In in Hin.
      unfold PyDict.keys in Hnd, Hin. rewrite map_app in Hnd.
      cbn [map fst] in Hnd. apply NoDup_remove_2 in Hnd.
      apply Hnd. apply in_or_app. now left. }
    assert (Hnd' : forall v, NoDup (PyDict.keys ((acc ++ [(key, v)]) ++ rest))).
    { intros v. rewrite <- app_assoc. cbn [app].
      unfold PyDict.keys in *. rewrite map_app in *. exact Hnd. }
    cbn [convert_items mapM].
    unfold rewrite_entry at 1. cbn [fst snd].
    destruct (String.eqb key "automation").
    + cbn [bind ret Method_Monad].
      destruct (recurse value self) as [[v'|e] self1]; [|reflexivity].
      rewrite (PyDictFacts.set_absent key v' acc Habs).
      fold (convert_items recurse).
      rewrite (IH _ self1 (Hnd' v')). cbn [bind ret Method_Monad].
      destruct (mapM (rewrite_entry recurse) rest self1) as [[its|e] self2];
        [|reflexivity].
      now rewrite <- app_assoc.
    + rewrite (PyDictFacts.set_absent key value acc Habs).
      fold (convert_items recurse).
      rewrite (IH _ self (Hnd' value)). cbn [bind ret Method_Monad].
      destruct (mapM (rewrite_entry recurse) rest self) as [[its|e] self2];
        [|reflexivity].
      now rewrite <- app_assoc.
Qed.

Lemma rewrite_entries_no_container (recurse : Node -> Method Node)
    (items : list (string * Node)) (self : HAYamlConverter) :
  PyDict.get "automation" items = None ->
  mapM (rewrite_entry recurse) items self = (Ok items, self).
Proof.
  induction items as [|[key value] rest IH]; [reflexivity|].
  cbn [PyDict.get mapM]. unfold rewrite_entry at 1. cbn [fst snd].
  rewrite (String.eqb_sym key).
  destruct (String.eqb "automation" key); [discriminate|].
  intros Hget. cbn [bind ret Method_Monad]. now rewrite (IH Hget).
Qed.

Lemma rewrite_entries_container (recurse : Node -> Method Node)
    (items : list (string * Node)) (self : HAYamlConverter) (v : Node) :
  NoDup (PyDict.keys items) ->
  PyDict.get "automation" items = Some v ->
  mapM (rewrite_entry recurse) items self =
  match recurse v self with
  | (Ok v', self') => (Ok (PyDict.set "automation" v' items), self')
  | (Raise e, self') => (Raise e, self')
  end.
Proof.
  induction items as [|[key value] rest IH]; [discriminate|].
  intros Hnd. cbn [PyDict.get PyDict.set mapM].
  unfold rewrite_entry at 1. cbn [fst snd].
  rewrite (String.eqb_sym key).
  cbn [PyDict.keys map fst] in Hnd. apply NoDup_cons_iff in Hnd.
  destruct Hnd as [Hnotin Hnd].
  destruct (String.eqb "automation" key) eqn:Ek.
  - intros [= ->]. apply String.eqb_eq in Ek. subst key.
    cbn [bind ret Method_Monad].
    destruct (recurse v self) as [[v'|e] self1]; [|reflexivity].
    rewrite rewrite_entries_no_container; [reflexivity|].
    pose proof (PyDictFacts.contains_get "automation" rest) as Hc.
    destruct (PyDict.get "automation" rest); [|reflexivity].
    apply PyDictFacts.contains_In in Hc. contradiction.
  - intros Hget. cbn [bind ret Method_Monad].
    rewrite (IH Hnd Hget).
    destruct (recurse v self) as [[v'|e] self1]; reflexivity.
Qed.

(** C7.  On a mapping with unique keys that is not an automation,
    [_convert_yaml_data] rewrites the value under [automation], by a
    recursive call, and nothing else: the result has the same keys in
    the same order and, under every other key, the value it had.  Without
    an [automation] key the mapping is returned as it is. *)
Theorem convert_yaml_data_container (d : dict) (self : HAYamlConverter) :
  NoDup (PyDict.keys d) ->
  _is_automation (Mapping d) = false ->
  _convert_yaml_data py_str (Mapping d) self =
    match PyDict.get "automation" d with
    | None => (Ok (Mapping d), self)
    | Some v =>
        match _convert_yaml_data py_str v self with
        | (Ok v', self') =>
            (Ok (Mapping (PyDict.set "automation" v' d)), self')
        | (Raise e, self') => (Raise e, self')
        end
    end
  /\ (forall (out : Node) (self' : HAYamlConverter),
         _convert_yaml_data py_str (Mapping d) self = (Ok out, self') ->
         exists d' : dict,
           out = Mapping d' /\
           PyDict.keys d' = PyDict.keys d /\
           (forall k : string,
               k <> "automation" -> PyDict.get k d' = PyDict.get k d)).
Proof.
  intros Hnd Hauto.
  assert (Heq : _convert_yaml_data py_str (Mapping d) self =
    match PyDict.get "automation" d with
    | None => (Ok (Mapping d), self)
    | Some v =>
        match _convert_yaml_data py_str v self with
        | (Ok v', self') =>
            (Ok (Mapping (PyDict.set "automation" v' d)), self')
        | (Raise e, self') => (Raise e, self')
        end
    end).
  { cbn [_convert_yaml_data]. rewrite Hauto.
    fold (convert_items (_convert_yaml_data py_str)).
    cbn [bind ret Method_Monad].
    rewrite (convert_items_mapM _ d [] self Hnd). cbn [bind ret Method_Monad app].
    destruct (PyDict.get "automation" d) as [v|] eqn:Hget.
    - rewrite (rewrite_entries_container _ d self v Hnd Hget).
      destruct (_convert_yaml_data py_str v self) as [[v'|e] self1];
        reflexivity.
    - now rewrite rewrite_entries_no_container. }
  split; [exact Heq|].
  intros out self'. rewrite Heq.
  destruct (PyDict.get "automation" d) as [v|] eqn:Hget.
  - destruct (_convert_yaml_data py_str v self) as [[v'|e] self1];
      [|discriminate].
    intros [= <- <-]. eexists. split; [reflexivity|]. split.
    + apply PyDictFacts.keys_set_present.
      now rewrite PyDictFacts.contains_get, Hget.
    + intros k Hk. rewrite PyDictFacts.get_set.
      apply String.eqb_neq in Hk. now rewrite Hk.
  - intros [= <- <-]. exists d. auto.
Qed.

End WalkFacts.

(** ** Records and statistics *)

Lemma old_or_new_is_automation (d : dict) :
  has_old_keys d || has_new_keys d = true -> _is_automation (Mapping d) = true.
Proof.
  unfold has_old_keys, has_new_keys, _is_automation, PyDict.any_key_in.
  cbn [existsb].
  destruct (PyDict.contains "trigger" d), (PyDict.contains "triggers" d),
    (PyDict.contains "condition" d), (PyDict.contains "conditions" d),
    (PyDict.contains "action" d), (PyDict.contains "actions" d);
    cbn; intros H; try reflexivity; discriminate H.
Qed.

Lemma trigger_key_is_old (d : dict) (t : Node) :
  PyDict.get "trigger" d = Some t -> has_old_keys d = true.
Proof.
  intros H. unfold has_old_keys, PyDict.any_key_in. cbn [existsb].
  now rewrite (PyDictFacts.contains_get "trigger"), H.
Qed.

Section RecordFacts.

Variable py_str : Node -> string.

(** C9.  Converting, with an empty log, a list of three automations, the
    first already in new syntax, the second with [trigger], [condition]
    and [action], the third with [trigger] only, leaves three entries:
    one white-circle entry and two check-mark entries, so that the
    statistics are 2 converted, 1 already new, 3 in total; the entry of
    the third automation lists the single rename of [trigger]. *)
Theorem three_automations_records
    (d1 d2 d3 : dict) (t2 t3 : Node) (ts2 ts3 : list Node) (stats0 : Stats) :
  _is_new_syntax (Mapping d1) = true ->
  PyDict.get "trigger" d2 = Some t2 ->
  PyDict.contains "condition" d2 = true ->
  PyDict.contains "action" d2 = true ->
  _convert_triggers t2 = Ok ts2 ->
  PyDict.get "trigger" d3 = Some t3 ->
  PyDict.contains "condition" d3 = false ->
  PyDict.contains "action" d3 = false ->
  _convert_triggers t3 = Ok ts3 ->
  let self' :=
    snd (_convert_yaml_data py_str
           (Sequence [Mapping d1; Mapping d2; Mapping d3])
           (mkConverter [] stats0)) in
  get_summary_stats self' = mkStats 2 1 3 /\
  changes_log self' =
    [("⚪ " ++ py_str (alias_of d1) ++ ": già in nuova sintassi")%string;
     ("✓ " ++ py_str (alias_of d2) ++
      ": trigger → triggers, condition → conditions, action → actions")%string;
     ("✓ " ++ py_str (alias_of d3) ++ ": trigger → triggers")%string].
Proof.
  intros Hnew Ht2 Hc2 Ha2 Hts2 Ht3 Hc3 Ha3 Hts3 self'.
  assert (Hold2 := trigger_key_is_old d2 t2 Ht2).
  assert (Hold3 := trigger_key_is_old d3 t3 Ht3).
  assert (Hlog : changes_log self' =
    [("⚪ " ++ py_str (alias_of d1) ++ ": già in nuova sintassi")%string;
     ("✓ " ++ py_str (alias_of d2) ++
      ": trigger → triggers, condition → conditions, action → actions")%string;
     ("✓ " ++ py_str (alias_of d3) ++ ": trigger → triggers")%string]).
  { subst self'. cbn [_convert_yaml_data mapM bind ret Method_Monad].
    unfold convert_item.
    rewrite (old_or_new_is_automation d1), (old_or_new_is_automation d2),
      (old_or_new_is_automation d3).
    2: now rewrite Hold3.
    2: now rewrite Hold2.
    2: { rewrite is_new_syntax_keys in Hnew.
         apply andb_true_iff in Hnew. destruct Hnew as [-> _].
         apply orb_true_r. }
    rewrite convert_automation_mapping, Hnew.
    rewrite convert_automation_mapping, is_new_syntax_keys, Hold2, andb_false_r.
    unfold trigger_list at 1. rewrite Ht2, Hts2.
    rewrite convert_automation_mapping, is_new_syntax_keys, Hold3, andb_false_r.
    unfold trigger_list at 1. rewrite Ht3, Hts3.
    unfold applied_renames.
    rewrite !(PyDictFacts.contains_get "trigger"), Ht2, Ht3, Hc2, Ha2, Hc3, Ha3.
    reflexivity. }
  split; [|exact Hlog].
  unfold get_summary_stats. rewrite Hlog. reflexivity.
Qed.

End RecordFacts.

(** * The converter on the sample documents *)

Ltac distinct_keys :=
  repeat (apply NoDup_cons; [cbn; intuition discriminate|]); apply NoDup_nil.

(** C4: the element of [nested_container] is returned as it is, although
    walking into it would convert the automation it holds. *)
Lemma sequence_element_not_walked :
  fst (_convert_yaml_data str_label (Sequence nested_container) new_converter)
    = Ok (Sequence nested_container)
  /\ fst ((elems' <- mapM (recursing_item str_label) nested_container ;;
           ret (Sequence elems')) new_converter)
     = Ok (Sequence
             [Mapping [("automation",
                        Sequence [Mapping [("triggers",
                                            Sequence [state_trigger_new])]])]])
  /\ _convert_yaml_data str_label (Sequence nested_container) new_converter
     <> (elems' <- mapM (recursing_item str_label) nested_container ;;
         ret (Sequence elems')) new_converter.
Proof.
  split; [reflexivity|]. split; [reflexivity|].
  intros H. apply (f_equal fst) in H. vm_compute in H. discriminate H.
Defined.

(** C5: a string element passes, a number raises: no single policy. *)
Lemma no_single_policy_for_non_mappings : ~ single_policy_for_non_mappings.
Proof.
  intros [Hraise | Hpass].
  - destruct (Hraise (PyStr "x") eq_refl) as [e He]. discriminate He.
  - specialize (Hpass (Scalar (SInt 5)) eq_refl). discriminate Hpass.
Defined.

(** C6: an automation recognised by its label alone is returned as it is
    and is not in new syntax. *)
Lemma alias_only_not_new_syntax :
  _is_automation (Mapping alias_only) = true
  /\ convert_automation str_label (Mapping alias_only) new_converter
     = (Ok (Mapping alias_only), new_converter)
  /\ _is_new_syntax (Mapping alias_only) = false
  /\ ~ (exists (r : Node) (self' : HAYamlConverter),
           convert_automation str_label (Mapping alias_only) new_converter
           = (Ok r, self') /\
           _is_new_syntax r = true).
Proof.
  repeat split.
  intros [r [self' [Hc Hn]]]. vm_compute in Hc.
  injection Hc as <- _. discriminate Hn.
Defined.

(** C8: for an automation recognised by its label alone the call appends
    no entry. *)
Lemma alias_only_no_record :
  _is_automation (Mapping alias_only) = true
  /\ changes_log
       (snd (convert_automation str_label (Mapping alias_only) new_converter))
     = changes_log new_converter
  /\ List.length
       (changes_log
          (snd (convert_automation str_label (Mapping alias_only)
                  new_converter)))
     <> S (List.length (changes_log new_converter)).
Proof.
  split; [reflexivity|]. split; [reflexivity|].
  vm_compute. discriminate.
Defined.

(** C6 on [old_automation], on [bad_trigger] and on [alias_only]. *)
Lemma converted_is_new_syntax_example :
  ((exists (r : Node) (self' : HAYamlConverter),
       convert_automation str_label (Mapping old_automation) new_converter
       = (Ok r, self') /\ _is_new_syntax r = true)
   \/ (exists t : Node,
          PyDict.get "trigger" old_automation = Some t /\
          _convert_triggers t = Raise TypeError /\
          convert_automation str_label (Mapping old_automation) new_converter
          = (Raise TypeError, new_converter)))
  /\ (convert_automation str_label (Mapping alias_only) new_converter
      = (Ok (Mapping alias_only), new_converter)
      /\ _is_new_syntax (Mapping alias_only) = false).
Proof.
  split.
  - apply (proj1 (converted_is_new_syntax str_label old_automation new_converter)).
    reflexivity.
  - apply (proj2 (converted_is_new_syntax str_label alias_only new_converter)).
    reflexivity.
Defined.

(** C10 on [half_converted]: the stale list under [triggers] is replaced. *)
Lemma partial_conversion_overwrites_example :
  exists d' : dict,
    fst (convert_automation str_label (Mapping half_converted) new_converter)
    = Ok (Mapping d') /\
    PyDict.get "triggers" d' = Some (Sequence [state_trigger_new]) /\
    PyDict.contains "trigger" d' = false /\
    PyDict.get "actions" d' = Some (Sequence []).
Proof.
  destruct (partial_conversion_overwrites str_label half_converted
              state_trigger (Sequence [PyStr "stale"]) new_converter
              eq_refl eq_refl)
    as [d' [Hc [Ht [Hno [_ [_ [_ [Ha _]]]]]]]].
  exists d'. repeat split; try assumption.
  rewrite (Ha eq_refl). reflexivity.
Defined.

(** C7 on [config_document]: only the value under [automation] changes. *)
Lemma convert_yaml_data_container_example :
  fst (_convert_yaml_data str_label (Mapping config_document) new_converter)
  = Ok (Mapping
          [("automation",
            Sequence [Mapping [("alias", PyStr "A");
                               ("triggers", Sequence [state_trigger_new])]]);
           ("other_key", Mapping [("trigger", state_trigger)])]).
Proof.
  rewrite (proj1 (convert_yaml_data_container str_label config_document
                    new_converter ltac:(distinct_keys) eq_refl)).
  reflexivity.
Defined.

(** C9 on [new_automation], [old_automation], [trigger_only]. *)
Lemma three_automations_records_example :
  get_summary_stats
    (snd (_convert_yaml_data str_label
            (Sequence [Mapping new_automation; Mapping old_automation;
                       Mapping trigger_only])
            new_converter))
  = mkStats 2 1 3
  /\ nth_error
       (changes_log
          (snd (_convert_yaml_data str_label
                  (Sequence [Mapping new_automation; Mapping old_automation;
                             Mapping trigger_only])
                  new_converter)))
       2
     = Some "✓ T: trigger → triggers".
Proof.
  destruct (three_automations_records str_label new_automation old_automation
              trigger_only state_trigger state_trigger
              [state_trigger_new] [state_trigger_new] (mkStats 0 0 0)
              eq_refl eq_refl eq_refl eq_refl eq_refl
              eq_refl eq_refl eq_refl eq_refl)
    as [Hstats Hlog].
  split; [exact Hstats|].
  unfold new_converter. rewrite Hlog. reflexivity.
Defined.

(** * Further properties of the converter *)

(** ** Induction on documents *)

Lemma Node_nested_ind (P : Node -> Prop) :
  (forall items : list (string * Node),
      Forall (fun kv => P (snd kv)) items -> P (Mapping items)) ->
  (forall elems : list Node, Forall P elems -> P (Sequence elems)) ->
  (forall v : ScalarValue, P (Scalar v)) ->
  forall n : Node, P n.
Proof.
  intros Hmap Hseq Hscalar.
  refine (fix IH (n : Node) : P n :=
            match n with
            | Mapping items =>
                Hmap items
                  ((fix go (l : list (string * Node))
                      : Forall (fun kv => P (snd kv)) l :=
                      match l with
                      | [] => Forall_nil _
                      | kv :: rest =>
                          Forall_cons kv (IH (snd kv)) (go rest)
                      end) items)
            | Sequence elems =>
                Hseq elems
                  ((fix go (l : list Node) : Forall P l :=
                      match l with
                      | [] => Forall_nil _
                      | x :: rest => Forall_cons x (IH x) (go rest)
                      end) elems)
            | Scalar v => Hscalar v
            end).
Qed.

Lemma unique_keys_mapping (items : list (string * Node)) :
  unique_keys (Mapping items) <->
  NoDup (PyDict.keys items) /\ Forall (fun kv => unique_keys (snd kv)) items.
Proof.
  cbn [unique_keys]. apply and_iff_compat_l.
  induction items as [|kv rest IH].
  - split; [constructor | trivial].
  - rewrite Forall_cons_iff, IH. reflexivity.
Qed.

Lemma unique_keys_sequence (elems : list Node) :
  unique_keys (Sequence elems) <-> Forall unique_keys elems.
Proof.
  cbn [unique_keys].
  induction elems as [|x rest IH].
  - split; [constructor | trivial].
  - rewrite Forall_cons_iff, IH. reflexivity.
Qed.

(** ** Methods that only append to the log *)

Lemma log_entries_app (self : HAYamlConverter) (e1 e2 : list string) :
  log_entries (log_entries self e1) e2 = log_entries self (e1 ++ e2).
Proof. unfold log_entries. cbn. now rewrite app_assoc. Qed.

Section AppendsOnly.

Variable P : string -> Prop.

Lemma appends_only_ret {A : Type} (a : A) : appends_only P (ret a).
Proof.
  exists (Ok a), []. split; [constructor|].
  intros self. cbn. now rewrite log_entries_nil.
Qed.

Lemma appends_only_raise {A : Type} (e : PyError) :
  appends_only P (fun self => (@Raise A e, self)).
Proof.
  exists (Raise e), []. split; [constructor|].
  intros self. now rewrite log_entries_nil.
Qed.

Lemma appends_only_bind {A B : Type} (m : Method A) (k : A -> Method B) :
  appends_only P m -> (forall a, appends_only P (k a)) ->
  appends_only P (bind m k).
Proof.
  intros [r [e1 [H1 Hm]]] Hk. destruct r as [a|e].
  - destruct (Hk a) as [r2 [e2 [H2 Hka]]].
    exists r2, (e1 ++ e2). split; [now apply Forall_app|].
    intros self. cbn [bind Method_Monad].
    now rewrite Hm, Hka, log_entries_app.
  - exists (Raise e), e1. split; [assumption|].
    intros self. cbn [bind Method_Monad]. now rewrite Hm.
Qed.

Lemma appends_only_mapM {A B : Type} (f : A -> Method B) (l : list A) :
  Forall (fun x => appends_only P (f x)) l -> appends_only P (mapM f l).
Proof.
  induction 1 as [|x l Hx Hl IH]; cbn [mapM].
  - apply appends_only_ret.
  - apply appends_only_bind; [assumption|]. intros y.
    apply appends_only_bind; [assumption|]. intros ys.
    apply appends_only_ret.
Qed.

Lemma appends_only_convert_items (recurse : Node -> Method Node)
    (items : list (string * Node)) :
  Forall (fun kv => appends_only P (recurse (snd kv))) items ->
  forall acc : dict, appends_only P (convert_items recurse items acc).
Proof.
  induction 1 as [|[key value] rest Hv Hrest IH]; intros acc;
    cbn [convert_items].
  - apply appends_only_ret.
  - fold (convert_items recurse).
    destruct (String.eqb key "automation").
    + apply appends_only_bind; [exact Hv|]. intros v'. apply IH.
    + apply IH.
Qed.

End AppendsOnly.

Lemma startswith_check_mark (rest : string) :
  marked ("✓ " ++ rest).
Proof. reflexivity. Qed.

Lemma startswith_white_circle (rest : string) :
  marked ("⚪ " ++ rest).
Proof. reflexivity. Qed.

Section WholeDocument.

Variable py_str : Node -> string.

Lemma appends_only_convert_automation (a : Node) :
  appends_only marked (convert_automation py_str a).
Proof.
  destruct a as [d|elems|v]; try apply appends_only_raise.
  destruct (_is_new_syntax (Mapping d)) eqn:Enew.
  - eexists _, _. split; [|intros self;
      rewrite convert_automation_mapping, Enew; reflexivity].
    constructor; [apply startswith_white_circle | constructor].
  - destruct (trigger_list d) as [ts|e] eqn:Et.
    + eexists _, _. split; [|intros self;
        rewrite convert_automation_mapping, Enew, Et; reflexivity].
      destruct (applied_renames d); [constructor|].
      constructor; [apply startswith_check_mark | constructor].
    + exists (Raise e), []. split; [constructor|]. intros self.
      now rewrite convert_automation_mapping, Enew, Et, log_entries_nil.
Qed.

Lemma appends_only_convert_item (item : Node) :
  appends_only marked (convert_item py_str item).
Proof.
  unfold convert_item. destruct (_is_automation item).
  - apply appends_only_convert_automation.
  - apply appends_only_ret.
Qed.

Lemma appends_only_convert_yaml_data (n : Node) :
  appends_only marked (_convert_yaml_data py_str n).
Proof.
  induction n as [items IH|elems IH|v] using Node_nested_ind.
  - cbn [_convert_yaml_data]. destruct (_is_automation (Mapping items)).
    + apply appends_only_convert_automation.
    + fold (convert_items (_convert_yaml_data py_str)).
      apply appends_only_bind.
      * now apply appends_only_convert_items.
      * intros d. apply appends_only_ret.
  - cbn [_convert_yaml_data]. apply appends_only_bind.
    + apply appends_only_mapM.
      apply Forall_forall. intros x _. apply appends_only_convert_item.
    + intros l. apply appends_only_ret.
  - apply appends_only_ret.
Qed.

End WholeDocument.

(** ** More on dictionaries *)

Module PyDictKeys.
Import PyDict.

Lemma keys_set_absent (k : string) (v : Node) (d : dict) :
  contains k d = false -> keys (set k v d) = keys d ++ [k].
Proof.
  intros H. rewrite (PyDictFacts.set_absent k v d H).
  unfold keys. now rewrite map_app.
Qed.

Lemma NoDup_keys_set (k : string) (v : Node) (d : dict) :
  NoDup (keys d) -> NoDup (keys (set k v d)).
Proof.
  intros Hnd. destruct (contains k d) eqn:Hc.
  - now rewrite PyDictFacts.keys_set_present.
  - rewrite keys_set_absent by assumption.
    apply NoDup_app; [assumption | repeat constructor; intros [] |].
    intros x Hx [<-|[]].
    apply PyDictFacts.contains_In in Hx. congruence.
Qed.

Lemma keys_del (k : string) (d : dict) :
  keys (del k d) = filter (fun k' => negb (String.eqb k k')) (keys d).
Proof.
  unfold keys, del.
  induction d as [|[k0 v0] rest IH]; [reflexivity|].
  cbn [filter map fst]. destruct (String.eqb k k0); cbn; now rewrite IH.
Qed.

Lemma NoDup_keys_del (k : string) (d : dict) :
  NoDup (keys d) -> NoDup (keys (del k d)).
Proof. intros H. rewrite keys_del. now apply NoDup_filter. Qed.

Lemma In_set (k : string) (v : Node) (d : dict) (kv : string * Node) :
  In kv (set k v d) -> In kv d \/ snd kv = v.
Proof.
  induction d as [|[k0 v0] rest IH]; cbn [set].
  - intros [<-|[]]. now right.
  - destruct (String.eqb k k0).
    + intros [<-|H]; [now right | left; now right].
    + intros [<-|H]; [left; now left|].
      destruct (IH H) as [H'|H']; [left; now right | now right].
Qed.

Lemma In_del (k : string) (d : dict) (kv : string * Node) :
  In kv (del k d) -> In kv d.
Proof. unfold del. intros H. now apply filter_In in H. Qed.

Lemma get_In (k : string) (v : Node) (d : dict) :
  get k d = Some v -> In (k, v) d.
Proof.
  induction d as [|[k0 v0] rest IH]; [discriminate|]. cbn [get].
  destruct (String.eqb k k0) eqn:E.
  - intros [= ->]. apply String.eqb_eq in E. subst. now left.
  - intros H. right. now apply IH.
Qed.

Lemma set_get_same (k : string) (v : Node) (d : dict) :
  get k d = Some v -> set k v d = d.
Proof.
  induction d as [|[k0 v0] rest IH]; [discriminate|]. cbn [get set].
  destruct (String.eqb k k0) eqn:E.
  - now intros [= ->].
  - intros H. now rewrite IH.
Qed.

Lemma without_keys_set (ks : list string) (k : string) (v : Node) (d : dict) :
  In k ks -> without_keys ks (set k v d) = without_keys ks d.
Proof.
  intros Hin.
  assert (Hk : existsb (String.eqb k) ks = true).
  { apply existsb_exists. exists k. split; [assumption|apply String.eqb_refl]. }
  unfold without_keys.
  induction d as [|[k0 v0] rest IH]; cbn [set filter fst].
  - now rewrite Hk.
  - destruct (String.eqb k k0) eqn:E; cbn [filter fst].
    + apply String.eqb_eq in E. subst k0. now rewrite Hk.
    + now rewrite IH.
Qed.

Lemma without_keys_del (ks : list string) (k : string) (d : dict) :
  In k ks -> without_keys ks (del k d) = without_keys ks d.
Proof.
  intros Hin. unfold without_keys, del.
  induction d as [|[k0 v0] rest IH]; [reflexivity|]. cbn [filter fst].
  destruct (String.eqb k k0) eqn:E; cbn [negb filter fst].
  - apply String.eqb_eq in E. subst k0.
    assert (Hk : existsb (String.eqb k) ks = true).
    { apply existsb_exists. exists k.
      split; [assumption|apply String.eqb_refl]. }
    rewrite Hk. cbn [negb]. exact IH.
  - now rewrite IH.
Qed.

End PyDictKeys.

(** ** What a conversion keeps and what it changes *)

Lemma renamed_keys_without (ts : list Node) (d : dict) :
  without_keys rename_keys (renamed_keys ts d) = without_keys rename_keys d.
Proof.
  unfold renamed_keys, rename_keys.
  repeat match goal with
    | |- context [if ?b then _ else _] => destruct b
    | |- context [match ?o with Some _ => _ | None => _ end] => destruct o
    | |- _ => rewrite PyDictKeys.without_keys_del by (cbn; tauto)
    | |- _ => rewrite PyDictKeys.without_keys_set by (cbn; tauto)
    end; reflexivity.
Qed.

Lemma renamed_keys_get_other (ts : list Node) (d : dict) (k : string) :
  ~ In k rename_keys ->
  PyDict.get k (renamed_keys ts d) = PyDict.get k d.
Proof.
  intros Hk.
  assert (Hne : forall k', In k' rename_keys -> String.eqb k k' = false).
  { intros k' Hin. apply String.eqb_neq. intros ->. contradiction. }
  pose proof (Hne "trigger" ltac:(cbn; tauto)) as H1.
  pose proof (Hne "triggers" ltac:(cbn; tauto)) as H2.
  pose proof (Hne "condition" ltac:(cbn; tauto)) as H3.
  pose proof (Hne "conditions" ltac:(cbn; tauto)) as H4.
  pose proof (Hne "action" ltac:(cbn; tauto)) as H5.
  pose proof (Hne "actions" ltac:(cbn; tauto)) as H6.
  unfold renamed_keys.
  repeat match goal with
    | |- context [if PyDict.contains ?a ?b then _ else _] =>
        destruct (PyDict.contains a b)
    | |- context [match PyDict.get ?a ?b with Some _ => _ | None => _ end] =>
        destruct (PyDict.get a b)
    | |- _ => rewrite PyDictFacts.get_del
    | |- _ => rewrite PyDictFacts.get_set
    | |- _ => rewrite H1 | |- _ => rewrite H2 | |- _ => rewrite H3
    | |- _ => rewrite H4 | |- _ => rewrite H5 | |- _ => rewrite H6
    end; reflexivity.
Qed.

Lemma new_syntax_no_old (d : dict) :
  _is_new_syntax (Mapping d) = true ->
  has_old_keys d = false /\ has_new_keys d = true.
Proof.
  rewrite is_new_syntax_keys. intros H. apply andb_true_iff in H.
  destruct H as [Hn Ho]. apply negb_true_iff in Ho. now split.
Qed.

Lemma no_old_keys_gets (d : dict) :
  has_old_keys d = false ->
  PyDict.get "trigger" d = None /\ PyDict.get "condition" d = None /\
  PyDict.get "action" d = None.
Proof.
  unfold has_old_keys, PyDict.any_key_in. cbn [existsb].
  rewrite !PyDictFacts.contains_get.
  destruct (PyDict.get "trigger" d), (PyDict.get "condition" d),
    (PyDict.get "action" d); cbn; intros H; try discriminate H; auto.
Qed.

Section ConversionFacts.

Variable py_str : Node -> string.

(** A returned automation is returned again, whatever the converter. *)
Lemma convert_automation_fixed (a r : Node) (self self' : HAYamlConverter) :
  convert_automation py_str a self = (Ok r, self') ->
  forall self2 : HAYamlConverter,
    fst (convert_automation py_str r self2) = Ok r.
Proof.
  destruct a as [d|elems|v]; try discriminate.
  rewrite convert_automation_mapping.
  destruct (_is_new_syntax (Mapping d)) eqn:Enew.
  - intros [= <- _] self2. now rewrite convert_automation_mapping, Enew.
  - destruct (trigger_list d) as [ts|e] eqn:Ets; [|discriminate].
    intros [= <- _] self2.
    rewrite convert_automation_mapping, is_new_syntax_keys.
    destruct (has_old_keys d) eqn:Eold.
    + rewrite renamed_keys_some_new by assumption.
      now rewrite renamed_keys_no_old.
    + destruct (no_old_keys_unchanged ts d Eold) as [Hr [Ha Ht]].
      rewrite Hr, <- is_new_syntax_keys, Enew, Ht. cbn [fst].
      do 2 f_equal. apply (no_old_keys_unchanged [] d Eold).
Qed.

(** X3.  Whatever mapping [convert_automation] returns has none of the
    keys [trigger], [condition], [action]. *)
Theorem converted_has_no_old_key (d : dict) (self : HAYamlConverter) :
  match fst (convert_automation py_str (Mapping d) self) with
  | Ok (Mapping d') =>
      PyDict.any_key_in ["trigger"; "condition"; "action"] d' = false
  | Ok _ => False
  | Raise _ => True
  end.
Proof.
  rewrite convert_automation_mapping.
  destruct (_is_new_syntax (Mapping d)) eqn:Enew; cbn [fst].
  - apply (new_syntax_no_old d Enew).
  - destruct (trigger_list d) as [ts|e]; cbn [fst]; [|exact I].
    apply renamed_keys_no_old.
Qed.

(** X4.  [convert_automation] leaves every key other than the six it
    renames as it was: the entries under the other keys are the same, in
    the same order, and each such key looks up the same value. *)
Theorem conversion_keeps_other_keys (d : dict) (self : HAYamlConverter) :
  match fst (convert_automation py_str (Mapping d) self) with
  | Ok (Mapping d') =>
      without_keys rename_keys d' = without_keys rename_keys d /\
      (forall k : string,
          ~ In k rename_keys -> PyDict.get k d' = PyDict.get k d)
  | Ok _ => False
  | Raise _ => True
  end.
Proof.
  rewrite convert_automation_mapping.
  destruct (_is_new_syntax (Mapping d)); cbn [fst]; [now split|].
  destruct (trigger_list d) as [ts|e]; cbn [fst]; [|exact I].
  split; [apply renamed_keys_without|].
  intros k Hk. now apply renamed_keys_get_other.
Qed.

(** X5.  In the mapping [convert_automation] returns, [conditions] holds
    the value that was under [condition] and [actions] the value that was
    under [action], unchanged; [triggers] holds the list
    [_convert_triggers] makes of the value under [trigger].  A new key
    whose old key was absent keeps the value it had. *)
Theorem conversion_moves_values (d : dict) (self : HAYamlConverter) :
  match fst (convert_automation py_str (Mapping d) self) with
  | Ok (Mapping d') =>
      PyDict.get "triggers" d' =
        match PyDict.get "trigger" d with
        | Some t =>
            match _convert_triggers t with
            | Ok ts => Some (Sequence ts)
            | Raise _ => None
            end
        | None => PyDict.get "triggers" d
        end /\
      PyDict.get "conditions" d' =
        match PyDict.get "condition" d with
        | Some c => Some c
        | None => PyDict.get "conditions" d
        end /\
      PyDict.get "actions" d' =
        match PyDict.get "action" d with
        | Some a => Some a
        | None => PyDict.get "actions" d
        end
  | Ok _ => False
  | Raise _ => True
  end.
Proof.
  rewrite convert_automation_mapping.
  destruct (_is_new_syntax (Mapping d)) eqn:Enew; cbn [fst].
  - destruct (new_syntax_no_old d Enew) as [Hold _].
    destruct (no_old_keys_gets d Hold) as [-> [-> ->]]. auto.
  - unfold trigger_list.
    destruct (PyDict.get "trigger" d) as [t|] eqn:Ht.
    + destruct (_convert_triggers t) as [ts|e]; cbn [fst]; [|exact I].
      unfold renamed_keys. rewrite !PyDictFacts.contains_get, Ht.
      destruct (PyDict.get "condition" d) eqn:Hc;
        destruct (PyDict.get "action" d) eqn:Ha;
        dict_simpl; rewrite ?Hc, ?Ha; dict_simpl; rewrite ?Hc, ?Ha;
        dict_simpl; auto.
    + cbn [fst]. unfold renamed_keys.
      rewrite !PyDictFacts.contains_get, Ht.
      destruct (PyDict.get "condition" d) eqn:Hc;
        destruct (PyDict.get "action" d) eqn:Ha;
        dict_simpl; rewrite ?Hc, ?Ha; dict_simpl; rewrite ?Hc, ?Ha;
        dict_simpl; auto.
Qed.

Lemma converted_stays_automation (d : dict) (self : HAYamlConverter) :
  match fst (convert_automation py_str (Mapping d) self) with
  | Ok r => _is_automation r = _is_automation (Mapping d)
  | Raise _ => True
  end.
Proof.
  rewrite convert_automation_mapping.
  destruct (_is_new_syntax (Mapping d)); cbn [fst]; [reflexivity|].
  destruct (trigger_list d) as [ts|e]; cbn [fst]; [|exact I].
  destruct (has_old_keys d) eqn:Eold.
  - rewrite (old_or_new_is_automation d) by now rewrite Eold.
    apply old_or_new_is_automation.
    rewrite (renamed_keys_some_new ts d Eold). apply orb_true_r.
  - now destruct (no_old_keys_unchanged ts d Eold) as [-> _].
Qed.

(** X6.  What [convert_automation] returns is an automation for
    [_is_automation] exactly when its argument was. *)
Theorem conversion_keeps_classification (d : dict) (self : HAYamlConverter) :
  match fst (convert_automation py_str (Mapping d) self) with
  | Ok r => _is_automation r = _is_automation (Mapping d)
  | Raise _ => True
  end.
Proof. apply converted_stays_automation. Qed.

End ConversionFacts.

(** ** Converting triggers twice *)

Lemma renamed_entry_fixed (d : dict) :
  renamed_entry (renamed_entry d) = renamed_entry d.
Proof.
  unfold renamed_entry at 2 3.
  destruct (PyDict.get "platform" d) as [v|] eqn:E.
  - unfold renamed_entry. now rewrite PyDictFacts.get_del.
  - unfold renamed_entry. now rewrite E.
Qed.

Lemma convert_trigger_fixed (x o : Node) :
  convert_trigger x = Ok o -> convert_trigger o = Ok o.
Proof.
  destruct x as [d|elems|v].
  - rewrite convert_trigger_mapping. intros [= <-].
    now rewrite convert_trigger_mapping, renamed_entry_fixed.
  - intros H. assert (Ho : o = Sequence elems).
    { unfold convert_trigger in H. cbn in H.
      destruct (existsb (PyNode.is_str "platform") elems); cbn in H;
        congruence. }
    subst o. exact H.
  - intros H. assert (Ho : o = Scalar v).
    { unfold convert_trigger in H. destruct v; cbn in H; try discriminate.
      destruct (PyString.contains "platform" s); cbn in H; congruence. }
    subst o. exact H.
Qed.

(** X7.  [_convert_triggers] is idempotent: the list it returns,
    converted again, is returned unchanged. *)
Theorem convert_triggers_idempotent (triggers : Node) :
  match _convert_triggers triggers with
  | Ok outs => _convert_triggers (Sequence outs) = Ok outs
  | Raise _ => True
  end.
Proof.
  assert (Hmap : forall entries,
             match mapM convert_trigger entries with
             | Ok outs => mapM convert_trigger outs = Ok outs
             | Raise _ => True
             end).
  { intros entries.
    pose proof (mapM_result_spec convert_trigger entries) as H.
    destruct (mapM convert_trigger entries) as [outs|e]; [|exact I].
    rewrite <- (map_id outs) at 2. apply mapM_result_all_ok.
    induction H as [|x o l l' Hx Hl IH]; constructor; [|exact IH].
    now apply (convert_trigger_fixed x). }
  unfold _convert_triggers.
  destruct triggers as [d|elems|v]; cbn [PyNode.iter bind result_Monad].
  - apply Hmap.
  - apply Hmap.
  - destruct v; try exact I. apply Hmap.
Qed.

(** ** The walk over a whole document *)

Lemma marked_counts (log : list string) :
  Forall marked log ->
  List.length (filter (PyString.startswith "✓") log) +
  List.length (filter (PyString.startswith "⚪") log) = List.length log.
Proof.
  induction 1 as [|e log He _ IH]; [reflexivity|].
  cbn [filter]. unfold marked in He.
  destruct (PyString.startswith "✓" e), (PyString.startswith "⚪" e);
    try discriminate He; cbn [List.length]; rewrite <- IH.
  - reflexivity.
  - now rewrite Nat.add_succ_r.
Qed.

Lemma is_automation_keys (d1 d2 : dict) :
  PyDict.keys d1 = PyDict.keys d2 ->
  _is_automation (Mapping d1) = _is_automation (Mapping d2).
Proof.
  intros H. unfold _is_automation, PyDict.any_key_in, PyDict.contains.
  now rewrite H.
Qed.

Lemma automation_free_mapping (items : list (string * Node)) :
  automation_free (Mapping items) <->
  _is_automation (Mapping items) = false /\
  NoDup (PyDict.keys items) /\
  Forall (fun kv => fst kv = "automation" -> automation_free (snd kv)) items.
Proof.
  cbn [automation_free]. do 2 apply and_iff_compat_l.
  induction items as [|kv rest IH].
  - split; [constructor | trivial].
  - rewrite Forall_cons_iff, IH. reflexivity.
Qed.

Section DocumentFacts.

Variable py_str : Node -> string.

(** X1.  [_convert_yaml_data] only appends to the log: the value it
    returns (or the exception it raises) and the entries it appends are
    the same for every converter, the earlier entries and the totals are
    left as they were, and every new entry starts with exactly one of the
    two marks that [get_summary_stats] counts. *)
Theorem convert_yaml_data_only_appends (data : Node) :
  exists (r : result Node) (entries : list string),
    Forall marked entries /\
    forall self : HAYamlConverter,
      _convert_yaml_data py_str data self = (r, log_entries self entries).
Proof. apply appends_only_convert_yaml_data. Qed.

(** X2.  After a walk that started from a log of marked entries, an
    empty one say, the counts of [get_summary_stats] add up:
    [converted + already_new = total]. *)
Theorem summary_stats_add_up (data : Node) (self : HAYamlConverter) :
  Forall marked (changes_log self) ->
  let stats :=
    get_summary_stats (snd (_convert_yaml_data py_str data self)) in
  converted stats + already_new stats = total stats.
Proof.
  intros Hlog.
  destruct (appends_only_convert_yaml_data py_str data)
    as (r & entries & Hentries & Hrun).
  rewrite Hrun. unfold get_summary_stats, log_entries.
  cbn [snd changes_log converted already_new total].
  apply marked_counts. apply Forall_app. now split.
Qed.

Lemma convert_yaml_data_automation (n : Node) (self : HAYamlConverter) :
  _is_automation n = true ->
  _convert_yaml_data py_str n self = convert_automation py_str n self.
Proof.
  destruct n as [d|elems|v]; try discriminate.
  intros H. cbn [_convert_yaml_data]. now rewrite H.
Qed.

Lemma convert_yaml_data_mapping (d : dict) (self : HAYamlConverter) :
  NoDup (PyDict.keys d) ->
  _is_automation (Mapping d) = false ->
  _convert_yaml_data py_str (Mapping d) self =
    match PyDict.get "automation" d with
    | None => (Ok (Mapping d), self)
    | Some v =>
        match _convert_yaml_data py_str v self with
        | (Ok v', self') =>
            (Ok (Mapping (PyDict.set "automation" v' d)), self')
        | (Raise e, self') => (Raise e, self')
        end
    end.
Proof.
  intros Hnd Hauto.
  cbn [_convert_yaml_data]. rewrite Hauto.
  fold (convert_items (_convert_yaml_data py_str)).
  cbn [bind ret Method_Monad].
  rewrite (convert_items_mapM _ d [] self Hnd). cbn [bind ret Method_Monad app].
  destruct (PyDict.get "automation" d) as [v|] eqn:Hget.
  - rewrite (rewrite_entries_container _ d self v Hnd Hget).
    destruct (_convert_yaml_data py_str v self) as [[v'|e] self1];
      reflexivity.
  - now rewrite rewrite_entries_no_container.
Qed.

(** X8.  A document where the walk meets no automation is returned as it
    is, and the converter is left as it was. *)
Theorem automation_free_unchanged (data : Node) :
  automation_free data ->
  forall self : HAYamlConverter,
    _convert_yaml_data py_str data self = (Ok data, self).
Proof.
  induction data as [items IH|elems IH|v] using Node_nested_ind;
    intros Hfree self.
  - apply automation_free_mapping in Hfree as (Hauto & Hnd & Hall).
    rewrite convert_yaml_data_mapping by assumption.
    destruct (PyDict.get "automation" items) as [v|] eqn:Hget;
      [|reflexivity].
    pose proof (PyDictKeys.get_In _ _ _ Hget) as Hin.
    rewrite Forall_forall in IH, Hall.
    specialize (IH _ Hin). specialize (Hall _ Hin eq_refl).
    cbn [snd] in IH, Hall. rewrite (IH Hall self).
    now rewrite PyDictKeys.set_get_same.
  - cbn [automation_free] in Hfree.
    cbn [_convert_yaml_data bind ret Method_Monad].
    assert (Hm : mapM (convert_item py_str) elems self = (Ok elems, self)).
    { clear IH. induction elems as [|x elems IHl]; [reflexivity|].
      cbn [forallb] in Hfree. apply andb_prop in Hfree as [Ha Hrest].
      apply negb_true_iff in Ha.
      cbn [mapM bind ret Method_Monad]. unfold convert_item at 1.
      rewrite Ha. cbn [ret Method_Monad]. now rewrite (IHl Hrest). }
    now rewrite Hm.
  - reflexivity.
Qed.

Lemma convert_item_fixed (x o : Node) (self self' : HAYamlConverter) :
  convert_item py_str x self = (Ok o, self') ->
  forall self2 : HAYamlConverter, fst (convert_item py_str o self2) = Ok o.
Proof.
  unfold convert_item. destruct (_is_automation x) eqn:Ex.
  - intros H self2. destruct (_is_automation o); [|reflexivity].
    apply (convert_automation_fixed py_str x o self self' H).
  - intros [= <- _] self2. now rewrite Ex.
Qed.

Lemma mapM_convert_item_fixed (l : list Node) :
  forall (self : HAYamlConverter) (outs : list Node) (self' : HAYamlConverter),
    mapM (convert_item py_str) l self = (Ok outs, self') ->
    forall self2 : HAYamlConverter,
      fst (mapM (convert_item py_str) outs self2) = Ok outs.
Proof.
  induction l as [|x l IH]; intros self outs self' H self2.
  - cbn in H. injection H as <- _. reflexivity.
  - cbn [mapM bind ret Method_Monad] in H.
    destruct (convert_item py_str x self) as [[o|e] sa] eqn:Ex;
      [|discriminate].
    destruct (mapM (convert_item py_str) l sa) as [[os|e] sb] eqn:El;
      [|discriminate].
    injection H as <- _. cbn [mapM bind ret Method_Monad].
    pose proof (convert_item_fixed _ _ _ _ Ex self2) as Ho.
    destruct (convert_item py_str o self2) as [[o'|e] sc]; cbn [fst] in Ho;
      [|discriminate].
    injection Ho as ->.
    pose proof (IH _ _ _ El sc) as Hl.
    destruct (mapM (convert_item py_str) os sc) as [[os'|e] sd];
      cbn [fst] in Hl; [|discriminate].
    injection Hl as ->. reflexivity.
Qed.

Lemma convert_yaml_data_fixed (n : Node) :
  unique_keys n ->
  forall (self : HAYamlConverter) (r : Node) (self' : HAYamlConverter),
    _convert_yaml_data py_str n self = (Ok r, self') ->
    forall self2 : HAYamlConverter,
      fst (_convert_yaml_data py_str r self2) = Ok r.
Proof.
  induction n as [items IH|elems IH|v] using Node_nested_ind;
    intros Huk self r self' Hw self2.
  - apply unique_keys_mapping in Huk as [Hnd Hvals].
    destruct (_is_automation (Mapping items)) eqn:Ea.
    + rewrite convert_yaml_data_automation in Hw by assumption.
      pose proof (converted_stays_automation py_str items self) as Hr.
      rewrite Hw in Hr. cbn [fst] in Hr. rewrite Ea in Hr.
      rewrite convert_yaml_data_automation by assumption.
      apply (convert_automation_fixed py_str _ _ _ _ Hw).
    + rewrite convert_yaml_data_mapping in Hw by assumption.
      destruct (PyDict.get "automation" items) as [v|] eqn:Hget.
      * destruct (_convert_yaml_data py_str v self) as [[v'|e] s1] eqn:Hv;
          [|discriminate].
        injection Hw as <- <-.
        assert (Hkeys : PyDict.keys (PyDict.set "automation" v' items) =
                        PyDict.keys items).
        { apply PyDictFacts.keys_set_present.
          now rewrite PyDictFacts.contains_get, Hget. }
        rewrite convert_yaml_data_mapping;
          [| now rewrite Hkeys
           | now rewrite (is_automation_keys _ items Hkeys) ].
        rewrite PyDictFacts.get_set, String.eqb_refl.
        pose proof (PyDictKeys.get_In _ _ _ Hget) as Hin.
        rewrite Forall_forall in IH, Hvals.
        specialize (IH _ Hin (Hvals _ Hin) self v' s1 Hv self2).
        destruct (_convert_yaml_data py_str v' self2) as [[v''|e] s3];
          cbn [fst] in IH; [|discriminate].
        injection IH as ->. cbn [fst].
        now rewrite PyDictSet.set_set_same.
      * injection Hw as <- <-.
        rewrite convert_yaml_data_mapping by assumption. now rewrite Hget.
  - cbn [_convert_yaml_data bind ret Method_Monad] in Hw.
    destruct (mapM (convert_item py_str) elems self) as [[outs|e] s1] eqn:Hm;
      [|discriminate].
    injection Hw as <- <-. cbn [_convert_yaml_data bind ret Method_Monad].
    pose proof (mapM_convert_item_fixed _ _ _ _ Hm self2) as Ho.
    destruct (mapM (convert_item py_str) outs self2) as [[outs'|e] s2];
      cbn [fst] in Ho; [|discriminate].
    now injection Ho as ->.
  - cbn in Hw. injection Hw as <- <-. reflexivity.
Qed.

(** X9.  [_convert_yaml_data] is idempotent on a document whose mappings
    have distinct keys: what it returns, walked again, is returned
    unchanged. *)
Theorem convert_yaml_data_idempotent (data : Node) (self : HAYamlConverter) :
  unique_keys data ->
  match _convert_yaml_data py_str data self with
  | (Ok r, self') => fst (_convert_yaml_data py_str r self') = Ok r
  | (Raise _, _) => True
  end.
Proof.
  intros Huk.
  destruct (_convert_yaml_data py_str data self) as [[r|e] self'] eqn:Hw;
    [|exact I].
  apply (convert_yaml_data_fixed data Huk self r self' Hw).
Qed.

End DocumentFacts.

(** ** Conversion keeps documents well formed *)

Lemma unique_keys_set (k : string) (v : Node) (d : dict) :
  unique_keys (Mapping d) -> unique_keys v ->
  unique_keys (Mapping (PyDict.set k v d)).
Proof.
  rewrite !unique_keys_mapping. intros [Hnd Hd] Hv. split.
  - now apply PyDictKeys.NoDup_keys_set.
  - rewrite Forall_forall in *. intros kv Hin.
    apply PyDictKeys.In_set in Hin as [Hin| ->]; [now apply Hd | exact Hv].
Qed.

Lemma unique_keys_del (k : string) (d : dict) :
  unique_keys (Mapping d) -> unique_keys (Mapping (PyDict.del k d)).
Proof.
  rewrite !unique_keys_mapping. intros [Hnd Hd]. split.
  - now apply PyDictKeys.NoDup_keys_del.
  - rewrite Forall_forall in *. intros kv Hin.
    apply Hd. now apply PyDictKeys.In_del in Hin.
Qed.

Lemma unique_keys_get (k : string) (v : Node) (d : dict) :
  unique_keys (Mapping d) -> PyDict.get k d = Some v -> unique_keys v.
Proof.
  rewrite unique_keys_mapping. intros [_ Hd] Hget.
  rewrite Forall_forall in Hd.
  apply (Hd (k, v)). now apply PyDictKeys.get_In.
Qed.

Lemma unique_keys_move (old_key new_key : string) (d : dict) :
  unique_keys (Mapping d) ->
  unique_keys
    (Mapping match PyDict.get old_key d with
             | Some v => PyDict.del old_key (PyDict.set new_key v d)
             | None => d
             end).
Proof.
  intros Hd. destruct (PyDict.get old_key d) as [v|] eqn:Hget; [|exact Hd].
  apply unique_keys_del, unique_keys_set; [exact Hd|].
  exact (unique_keys_get _ _ _ Hd Hget).
Qed.

Lemma convert_trigger_unique_keys (x o : Node) :
  unique_keys x -> convert_trigger x = Ok o -> unique_keys o.
Proof.
  destruct x as [d|elems|v]; intros Hx.
  - rewrite convert_trigger_mapping. intros [= <-].
    now apply (unique_keys_move "platform" "trigger").
  - intros H. assert (Ho : o = Sequence elems).
    { unfold convert_trigger in H. cbn in H.
      destruct (existsb (PyNode.is_str "platform") elems); cbn in H;
        congruence. }
    now subst o.
  - intros H. assert (Ho : o = Scalar v).
    { unfold convert_trigger in H. destruct v; cbn in H; try discriminate.
      destruct (PyString.contains "platform" s); cbn in H; congruence. }
    now subst o.
Qed.

Lemma convert_triggers_unique_keys (t : Node) (ts : list Node) :
  unique_keys t -> _convert_triggers t = Ok ts -> unique_keys (Sequence ts).
Proof.
  intros Ht.
  assert (Hmap : forall entries,
             Forall unique_keys entries ->
             mapM convert_trigger entries = Ok ts ->
             unique_keys (Sequence ts)).
  { intros entries Hentries Hm.
    pose proof (mapM_result_spec convert_trigger entries) as H.
    rewrite Hm in H. apply unique_keys_sequence.
    clear Hm. induction H as [|x o l l' Hx Hl IH]; constructor.
    - apply (convert_trigger_unique_keys x); [|exact Hx].
      now apply Forall_inv in Hentries.
    - apply IH. now apply Forall_inv_tail in Hentries. }
  unfold _convert_triggers.
  destruct t as [d|elems|v]; cbn [PyNode.iter bind result_Monad].
  - apply Hmap. now constructor.
  - apply Hmap. now apply unique_keys_sequence.
  - destruct v; try discriminate. apply Hmap.
    apply Forall_forall. intros x Hx.
    apply in_map_iff in Hx as (c & <- & _). exact I.
Qed.

Lemma renamed_keys_unique_keys (ts : list Node) (d : dict) :
  unique_keys (Mapping d) -> unique_keys (Sequence ts) ->
  unique_keys (Mapping (renamed_keys ts d)).
Proof.
  intros Hd Hts. unfold renamed_keys.
  apply (unique_keys_move "action" "actions").
  apply (unique_keys_move "condition" "conditions").
  destruct (PyDict.contains "trigger" d); [|exact Hd].
  now apply unique_keys_del, unique_keys_set.
Qed.

Section WellFormed.

Variable py_str : Node -> string.

Lemma convert_automation_unique_keys
    (a r : Node) (self self' : HAYamlConverter) :
  unique_keys a ->
  convert_automation py_str a self = (Ok r, self') -> unique_keys r.
Proof.
  destruct a as [d|elems|v]; try discriminate.
  intros Hd. rewrite convert_automation_mapping.
  destruct (_is_new_syntax (Mapping d)).
  - now intros [= <- _].
  - destruct (trigger_list d) as [ts|e] eqn:Ets; [|discriminate].
    intros [= <- _]. apply renamed_keys_unique_keys; [exact Hd|].
    unfold trigger_list in Ets.
    destruct (PyDict.get "trigger" d) as [t|] eqn:Et.
    + apply (convert_triggers_unique_keys t); [|exact Ets].
      exact (unique_keys_get _ _ _ Hd Et).
    + injection Ets as <-. exact I.
Qed.

Lemma convert_yaml_data_unique_keys (n : Node) :
  unique_keys n ->
  forall (self : HAYamlConverter) (r : Node) (self' : HAYamlConverter),
    _convert_yaml_data py_str n self = (Ok r, self') -> unique_keys r.
Proof.
  induction n as [items IH|elems IH|v] using Node_nested_ind;
    intros Huk self r self' Hw.
  - destruct (_is_automation (Mapping items)) eqn:Ea.
    + rewrite convert_yaml_data_automation in Hw by assumption.
      exact (convert_automation_unique_keys _ _ _ _ Huk Hw).
    + pose proof Huk as Huk'.
      apply unique_keys_mapping in Huk' as [Hnd Hvals].
      rewrite convert_yaml_data_mapping in Hw by assumption.
      destruct (PyDict.get "automation" items) as [v|] eqn:Hget.
      * destruct (_convert_yaml_data py_str v self) as [[v'|e] s1] eqn:Hv;
          [|discriminate].
        injection Hw as <- <-. apply unique_keys_set; [exact Huk|].
        pose proof (PyDictKeys.get_In _ _ _ Hget) as Hin.
        rewrite Forall_forall in IH, Hvals.
        exact (IH _ Hin (Hvals _ Hin) self v' s1 Hv).
      * now injection Hw as <- <-.
  - cbn [_convert_yaml_data bind ret Method_Monad] in Hw.
    destruct (mapM (convert_item py_str) elems self) as [[outs|e] s1] eqn:Hm;
      [|discriminate].
    injection Hw as <- <-. apply unique_keys_sequence.
    apply unique_keys_sequence in Huk. clear IH.
    revert self outs s1 Hm.
    induction Huk as [|x l Hx Hl IHl]; intros self outs s1 Hm.
    + cbn in Hm. injection Hm as <- _. constructor.
    + cbn [mapM bind ret Method_Monad] in Hm.
      destruct (convert_item py_str x self) as [[o|e] sa] eqn:Ex;
        [|discriminate].
      destruct (mapM (convert_item py_str) l sa) as [[os|e] sb] eqn:El;
        [|discriminate].
      injection Hm as <- _. constructor.
      * unfold convert_item in Ex. destruct (_is_automation x).
        -- exact (convert_automation_unique_keys _ _ _ _ Hx Ex).
        -- cbn in Ex. now injection Ex as <- _.
      * exact (IHl _ _ _ El).
  - cbn in Hw. now injection Hw as <- <-.
Qed.

(** X10.  Conversion keeps a document well formed: when the keys of
    every mapping of the input are distinct, so are those of every
    mapping of the output. *)
Theorem conversion_keeps_keys_unique (data : Node) (self : HAYamlConverter) :
  unique_keys data ->
  match fst (_convert_yaml_data py_str data self) with
  | Ok r => unique_keys r
  | Raise _ => True
  end.
Proof.
  intros Huk.
  destruct (_convert_yaml_data py_str data self) as [[r|e] self'] eqn:Hw;
    cbn [fst]; [|exact I].
  exact (convert_yaml_data_unique_keys data Huk self r self' Hw).
Qed.

End WellFormed.

(** ** Files and directories *)

Lemma add_stats_zero_r (s : Stats) : add_stats s zero_stats = s.
Proof.
  destruct s. unfold add_stats, zero_stats. cbn.
  now rewrite !Nat.add_0_r.
Qed.


Section DriverFacts.

Variable py_str : Node -> string.

(** [convert_file] in terms of a walk that starts from a fresh
    converter. *)
Lemma convert_file_fresh (f : YamlFile) (self : HAYamlConverter) :
  convert_file py_str f self =
  match loaded f with
  | None => (false, self)
  | Some data =>
      match _convert_yaml_data py_str data (mkConverter [] zero_stats) with
      | (Ok converted_data, fresh) =>
          (dump_succeeds f converted_data,
           mkConverter (changes_log fresh)
             (add_stats (total_stats self) (get_summary_stats fresh)))
      | (Raise _, fresh) =>
          (false, mkConverter (changes_log fresh) (total_stats self))
      end
  end.
Proof.
  unfold convert_file. destruct (loaded f) as [data|]; [|reflexivity].
  destruct (appends_only_convert_yaml_data py_str data)
    as (r & entries & _ & Hrun).
  rewrite !Hrun. unfold log_entries, get_summary_stats.
  cbn [changes_log total_stats app].
  destruct r as [c|e]; [|reflexivity].
  destruct (dump_succeeds f c); reflexivity.
Qed.

Lemma convert_file_total_stats (f : YamlFile) (self : HAYamlConverter) :
  total_stats (snd (convert_file py_str f self)) =
  add_stats (total_stats self) (counted_stats py_str f).
Proof.
  rewrite convert_file_fresh. unfold counted_stats.
  destruct (loaded f) as [data|];
    [|cbn [snd]; now rewrite add_stats_zero_r].
  destruct (_convert_yaml_data py_str data (mkConverter [] zero_stats))
    as [[c|e] fresh]; cbn [snd total_stats];
    [reflexivity | now rewrite add_stats_zero_r].
Qed.


Lemma counted_stats_add_up (f : YamlFile) :
  converted (counted_stats py_str f) + already_new (counted_stats py_str f) =
  total (counted_stats py_str f).
Proof.
  unfold counted_stats. destruct (loaded f) as [data|]; [|reflexivity].
  destruct (appends_only_convert_yaml_data py_str data)
    as (r & entries & Hentries & Hrun).
  rewrite Hrun. destruct r as [c|e]; [|reflexivity].
  unfold get_summary_stats, log_entries.
  cbn [changes_log converted already_new total app].
  now apply marked_counts.
Qed.

Lemma convert_files_total_stats (files : list YamlFile) :
  forall (results : list (string * bool)) (self : HAYamlConverter),
    total_stats (snd (convert_files py_str files results self)) =
    fold_left add_stats (map (counted_stats py_str) files) (total_stats self).
Proof.
  induction files as [|f files IH]; intros results self; [reflexivity|].
  cbn [convert_files map fold_left].
  pose proof (convert_file_total_stats f self) as Hf.
  destruct (convert_file py_str f self) as [success self1].
  cbn [snd] in Hf. now rewrite IH, Hf.
Qed.


Lemma fold_add_stats_add_up (l : list Stats) :
  Forall (fun s => converted s + already_new s = total s) l ->
  forall acc : Stats,
    converted acc + already_new acc = total acc ->
    converted (fold_left add_stats l acc) +
    already_new (fold_left add_stats l acc) =
    total (fold_left add_stats l acc).
Proof.
  induction 1 as [|s l Hs _ IH]; intros acc Hacc; [exact Hacc|].
  cbn [fold_left]. apply IH. unfold add_stats. cbn. lia.
Qed.

(** X11.  [convert_file] adds to the totals the counts of the file's own
    entries once its content is converted, also when the result cannot
    be written and the file is reported as failed; a file that cannot be
    read or converted adds nothing. *)
Theorem convert_file_counts (f : YamlFile) (self : HAYamlConverter) :
  total_stats (snd (convert_file py_str f self)) =
  add_stats (total_stats self) (counted_stats py_str f).
Proof. apply convert_file_total_stats. Qed.

(** X12.  A file that cannot be read leaves the converter as it was.
    For any other file the earlier log is dropped: the log afterwards is
    the one a fresh converter has after walking the content, and the
    answer is whether that walk returned a tree that could be written. *)
Theorem convert_file_starts_afresh (f : YamlFile) (self : HAYamlConverter) :
  match loaded f with
  | None => convert_file py_str f self = (false, self)
  | Some data =>
      let walked := _convert_yaml_data py_str data new_converter in
      changes_log (snd (convert_file py_str f self)) =
        changes_log (snd walked) /\
      fst (convert_file py_str f self) =
        match fst walked with
        | Ok converted_data => dump_succeeds f converted_data
        | Raise _ => false
        end
  end.
Proof.
  rewrite convert_file_fresh. destruct (loaded f) as [data|]; [|reflexivity].
  unfold new_converter. fold zero_stats.
  destruct (_convert_yaml_data py_str data (mkConverter [] zero_stats))
    as [[c|e] fresh]; cbn; split; reflexivity.
Qed.

(** X13.  [convert_directory] on a directory starts the totals from
    zero: afterwards they are the sum of the counts of the files, whatever
    they were before.  On anything else it raises [ValueError] and
    leaves the converter as it was. *)
Theorem convert_directory_totals
    (is_dir : bool) (yaml_files : list YamlFile) (self : HAYamlConverter) :
  if is_dir then
    total_stats (snd (convert_directory py_str true yaml_files self)) =
    sum_stats (map (counted_stats py_str) yaml_files)
  else
    convert_directory py_str false yaml_files self = (ValueError, self).
Proof.
  destruct is_dir; [|reflexivity].
  unfold convert_directory, sum_stats. cbn [negb].
  destruct yaml_files as [|f files]; [reflexivity|].
  pose proof (convert_files_total_stats (f :: files) []
                (mkConverter (changes_log self) zero_stats)) as H.
  destruct (convert_files py_str (f :: files) []
              (mkConverter (changes_log self) zero_stats)) as [results self1].
  exact H.
Qed.

(** X14.  The totals [convert_directory] leaves add up:
    [converted + already_new = total]. *)
Theorem convert_directory_totals_add_up
    (yaml_files : list YamlFile) (self : HAYamlConverter) :
  let stats :=
    get_total_stats (snd (convert_directory py_str true yaml_files self)) in
  converted stats + already_new stats = total stats.
Proof.
  unfold convert_directory, get_total_stats. cbn [negb].
  destruct yaml_files as [|f files]; [reflexivity|].
  pose proof (convert_files_total_stats (f :: files) []
                (mkConverter (changes_log self) zero_stats)) as H.
  destruct (convert_files py_str (f :: files) []
              (mkConverter (changes_log self) zero_stats)) as [results self1].
  cbn [snd] in *. cbv zeta. rewrite H.
  apply fold_add_stats_add_up; [|reflexivity].
  apply Forall_forall. intros s Hs.
  apply in_map_iff in Hs as (g & <- & _). apply counted_stats_add_up.
Qed.


End DriverFacts.

(** ** The report *)

(** X16.  [get_changes_report] answers that nothing had to be changed
    exactly when the log is empty. *)
Theorem report_nothing_to_do (self : HAYamlConverter) :
  get_changes_report self = "Nessuna modifica necessaria." <->
  changes_log self = [].
Proof.
  split.
  - unfold get_changes_report.
    destruct (changes_log self) as [|e l]; [reflexivity|].
    cbv zeta.
    destruct (filter (PyString.startswith "✓") (e :: l));
      destruct (filter (PyString.startswith "⚪") (e :: l));
      cbn [String.append]; discriminate.
  - intros H. unfold get_changes_report. now rewrite H.
Qed.

(** ** Exceptions *)

Section OnlyRaises.

Variable e0 : PyError.

Lemma only_raises_ret {A : Type} (a : A) : only_raises e0 (ret a).
Proof. intros self e. discriminate. Qed.

Lemma only_raises_bind {A B : Type} (m : Method A) (k : A -> Method B) :
  only_raises e0 m -> (forall a, only_raises e0 (k a)) ->
  only_raises e0 (bind m k).
Proof.
  intros Hm Hk self e. cbn [bind Method_Monad].
  specialize (Hm self). destruct (m self) as [[a|e1] self1]; cbn [fst] in *.
  - apply Hk.
  - intros [= <-]. now apply Hm.
Qed.

Lemma only_raises_mapM {A B : Type} (f : A -> Method B) (l : list A) :
  Forall (fun x => only_raises e0 (f x)) l -> only_raises e0 (mapM f l).
Proof.
  induction 1 as [|x l Hx Hl IH]; cbn [mapM].
  - apply only_raises_ret.
  - apply only_raises_bind; [assumption|]. intros y.
    apply only_raises_bind; [assumption|]. intros ys.
    apply only_raises_ret.
Qed.

Lemma only_raises_convert_items (recurse : Node -> Method Node)
    (items : list (string * Node)) :
  Forall (fun kv => only_raises e0 (recurse (snd kv))) items ->
  forall acc : dict, only_raises e0 (convert_items recurse items acc).
Proof.
  induction 1 as [|[key value] rest Hv Hrest IH]; intros acc;
    cbn [convert_items].
  - apply only_raises_ret.
  - fold (convert_items recurse).
    destruct (String.eqb key "automation").
    + apply only_raises_bind; [exact Hv|]. intros v'. apply IH.
    + apply IH.
Qed.

End OnlyRaises.

(** X17.  Whatever [_is_new_syntax] accepts, [_is_automation] accepts. *)
Theorem new_syntax_is_automation (n : Node) :
  _is_new_syntax n = true -> _is_automation n = true.
Proof.
  destruct n as [d|elems|v]; try discriminate.
  rewrite is_new_syntax_keys. intros H.
  apply andb_prop in H as [Hnew _].
  apply old_or_new_is_automation. rewrite Hnew. apply orb_true_r.
Qed.

Section ExceptionFacts.

Variable py_str : Node -> string.

Lemma convert_automation_failure
    (a : Node) (self : HAYamlConverter) (e : PyError) :
  fst (convert_automation py_str a self) = Raise e ->
  snd (convert_automation py_str a self) = self /\
  e = if is_mapping a then TypeError else AttributeError.
Proof.
  destruct a as [d|elems|v];
    [|intros [= <-]; now split|intros [= <-]; now split].
  rewrite convert_automation_mapping.
  destruct (_is_new_syntax (Mapping d)); [discriminate|].
  destruct (trigger_list d) as [ts|e1] eqn:Ets; [discriminate|].
  cbn [fst snd is_mapping]. intros [= <-]. split; [reflexivity|].
  unfold trigger_list in Ets.
  destruct (PyDict.get "trigger" d) as [t|]; [|discriminate].
  exact (convert_triggers_raises t e1 Ets).
Qed.

(** X18.  A conversion that fails records nothing: the converter is left
    as it was.  The exception is [AttributeError] when the argument is no
    mapping and [TypeError] when it is one; [KeyError] never comes out. *)
Theorem failed_conversion_records_nothing
    (a : Node) (self : HAYamlConverter) (e : PyError) :
  fst (convert_automation py_str a self) = Raise e ->
  snd (convert_automation py_str a self) = self /\
  e = if is_mapping a then TypeError else AttributeError.
Proof. apply convert_automation_failure. Qed.

Lemma only_raises_convert_item (item : Node) :
  only_raises TypeError (convert_item py_str item).
Proof.
  unfold convert_item. destruct (_is_automation item) eqn:Ea.
  - intros self e He.
    destruct item as [d|elems|v]; try discriminate Ea.
    now destruct (convert_automation_failure _ _ _ He) as [_ ->].
  - apply only_raises_ret.
Qed.

(** X19.  The only exception [_convert_yaml_data] raises is
    [TypeError]. *)
Theorem convert_yaml_data_raises_type_error
    (data : Node) (self : HAYamlConverter) (e : PyError) :
  fst (_convert_yaml_data py_str data self) = Raise e -> e = TypeError.
Proof.
  revert self e. change (only_raises TypeError (_convert_yaml_data py_str data)).
  induction data as [items IH|elems IH|v] using Node_nested_ind.
  - cbn [_convert_yaml_data].
    destruct (_is_automation (Mapping items)) eqn:Ea.
    + intros self e He.
      now destruct (convert_automation_failure _ _ _ He) as [_ ->].
    + fold (convert_items (_convert_yaml_data py_str)).
      apply only_raises_bind.
      * now apply only_raises_convert_items.
      * intros d. apply only_raises_ret.
  - cbn [_convert_yaml_data]. apply only_raises_bind.
    + apply only_raises_mapM.
      apply Forall_forall. intros x _. apply only_raises_convert_item.
    + intros l. apply only_raises_ret.
  - apply only_raises_ret.
Qed.

End ExceptionFacts.

(** ** The further properties on the sample documents *)

Ltac distinct_keys_everywhere :=
  cbn; repeat split; try distinct_keys.

(** X2 on [config_document], from an empty log. *)
Lemma summary_stats_add_up_example :
  let stats :=
    get_summary_stats
      (snd (_convert_yaml_data str_label (Mapping config_document)
              new_converter)) in
  converted stats + already_new stats = total stats.
Proof.
  apply (summary_stats_add_up str_label (Mapping config_document)
           new_converter).
  constructor.
Defined.

(** X8 on [dashboard_document]. *)
Lemma automation_free_unchanged_example :
  _convert_yaml_data str_label dashboard_document new_converter =
  (Ok dashboard_document, new_converter).
Proof.
  apply (automation_free_unchanged str_label dashboard_document).
  unfold dashboard_document. cbn.
  repeat split; try distinct_keys; intros; reflexivity.
Defined.

(** X9 on [config_document]. *)
Lemma convert_yaml_data_idempotent_example :
  match _convert_yaml_data str_label (Mapping config_document) new_converter
  with
  | (Ok r, self') => fst (_convert_yaml_data str_label r self') = Ok r
  | (Raise _, _) => True
  end.
Proof.
  apply (convert_yaml_data_idempotent str_label (Mapping config_document)
           new_converter).
  distinct_keys_everywhere.
Defined.

(** X10 on [config_document]. *)
Lemma conversion_keeps_keys_unique_example :
  match fst (_convert_yaml_data str_label (Mapping config_document)
               new_converter) with
  | Ok r => unique_keys r
  | Raise _ => True
  end.
Proof.
  apply (conversion_keeps_keys_unique str_label (Mapping config_document)
           new_converter).
  distinct_keys_everywhere.
Defined.


(** X17 on [new_automation]. *)
Lemma new_syntax_is_automation_example :
  _is_new_syntax (Mapping new_automation) = true /\
  _is_automation (Mapping new_automation) = true.
Proof.
  split; [reflexivity|].
  apply (new_syntax_is_automation (Mapping new_automation)). reflexivity.
Defined.

(** X18 on [bad_trigger], whose trigger is a number. *)
Lemma failed_conversion_records_nothing_example :
  fst (convert_automation str_label (Mapping bad_trigger) new_converter) =
    Raise TypeError /\
  snd (convert_automation str_label (Mapping bad_trigger) new_converter) =
    new_converter.
Proof.
  split; [reflexivity|].
  apply (failed_conversion_records_nothing str_label (Mapping bad_trigger)
           new_converter TypeError).
  reflexivity.
Defined.

(** X19 on a list that holds [bad_trigger]. *)
Lemma convert_yaml_data_raises_type_error_example :
  fst (_convert_yaml_data str_label (Sequence [Mapping bad_trigger])
         new_converter) = Raise TypeError /\
  TypeError = TypeError.
Proof.
  split; [reflexivity|].
  apply (convert_yaml_data_raises_type_error str_label
           (Sequence [Mapping bad_trigger]) new_converter TypeError).
  reflexivity.
Defined.
